(** * Role reconciliation bot: a shallow embedding of [src/bot/bot.py]

    The bot keeps one Discord role in step with the pass/fail records of a
    quiz backend.  Its coroutines talk to two remote services (Discord and
    Supabase); here they are functions in a state-and-exception monad over
    an explicit [World].  The trace records what the bot changes and says:
    each [add_roles] request, each message it sends and each line it
    prints.  Look-ups ([get_member], [fetch_member], the backend queries)
    only read and leave no mark in the trace.

    Scope of the model.
    - One guild.
    - A [discord.Member] is either the object the guild's cache holds,
      whose [roles] follow the cache, or an object built from a response
      ([fetch_member], the author carried by a message), whose [roles]
      stay as they were built.
    - [add_roles] changes the guild; the cache learns of it only when
      the gateway's member update arrives, which is a step of its own
      ([member_update]).  The cache never shows a role the guild has
      not given.
    - A coroutine runs to its end before anything else happens: the
      coroutine [on_handle] schedules is run at once, and no other
      coroutine or gateway event falls between two of its steps.
    - Library calls raise only [Exception] subclasses, so [except
      Exception] and a bare [except] catch the same faults; what
      [add_roles] raises is one of discord.py's HTTP errors.
    - Text is ASCII.  (On other text [int()] also reads Unicode spaces
      and digits, which this model does not.) *)

From Stdlib Require Import ZArith String Ascii List DecimalString.
From stdpp Require Import gmap strings list fin_maps.

Local Open Scope Z_scope.
Local Open Scope string_scope.
Local Open Scope list_scope.

(** ** Python values and exceptions *)

(** The scalars a backend column or a feed payload field can hold. *)
Inductive pyval :=
| PyNone
| PyBool (b : bool)
| PyInt (z : Z)
| PyStr (s : string).

#[global] Instance pyval_eq_dec : EqDecision pyval.
Proof. solve_decision. Defined.

(** A row of the backend, or the [record] of a feed payload: a [dict]. *)
Abbreviation row := (gmap string pyval).

(** An exception instance: its class and the text [str(e)] renders. *)
Record exn := Exn { exn_class : string; exn_text : string }.

Inductive result (A : Type) :=
| Ok (a : A)
| Raise (e : exn).
Arguments Ok {A} a.
Arguments Raise {A} e.

(** Truth value of a Python object, as [if x:] and [and] test it. *)
Definition truthy (v : pyval) : bool :=
  match v with
  | PyNone => false
  | PyBool b => b
  | PyInt z => negb (z =? 0)%Z
  | PyStr s => negb (String.eqb s "")
  end.

(** [dict.get(key)]: the value, or [None] when the key is missing. *)
Definition dict_get (d : row) (key : string) : pyval :=
  default PyNone (d !! key).

(** [str(n)] for an [int]. *)
Definition str_of_Z (z : Z) : string := NilZero.string_of_int (Z.to_int z).
Definition str_of_nat (n : nat) : string := NilZero.string_of_uint (Nat.to_uint n).

(** [str(v)], as an f-string interpolates it. *)
Definition py_str (v : pyval) : string :=
  match v with
  | PyNone => "None"
  | PyBool true => "True"
  | PyBool false => "False"
  | PyInt z => str_of_Z z
  | PyStr s => s
  end.

(** *** [int(...)]

    [int] of a [str] strips surrounding ASCII white space, reads an
    optional sign and then decimal digits, single underscores allowed
    between digits. *)

Definition is_space (c : ascii) : bool :=
  let n := nat_of_ascii c in
  (Nat.eqb n 32 || (Nat.leb 9 n && Nat.leb n 13))%bool.

Fixpoint lstrip (cs : list ascii) : list ascii :=
  match cs with
  | c :: cs' => if is_space c then lstrip cs' else cs
  | [] => []
  end.

Definition strip (cs : list ascii) : list ascii :=
  rev (lstrip (rev (lstrip cs))).

Definition digit_of (c : ascii) : option Z :=
  let n := nat_of_ascii c in
  if (Nat.leb 48 n && Nat.leb n 57)%bool then Some (Z.of_nat (n - 48)) else None.

(** [after_digit] tells whether the previous character was a digit: an
    underscore is accepted only there, and the literal must end there. *)
Fixpoint parse_digits (after_digit : bool) (acc : Z) (cs : list ascii) : option Z :=
  match cs with
  | [] => if after_digit then Some acc else None
  | c :: cs' =>
      match digit_of c with
      | Some d => parse_digits true (10 * acc + d) cs'
      | None =>
          if (Ascii.eqb c "_" && after_digit)%bool
          then parse_digits false acc cs'
          else None
      end
  end.

Definition parse_int_literal (s : string) : option Z :=
  match strip (list_ascii_of_string s) with
  | c :: cs =>
      if Ascii.eqb c "-" then Z.opp <$> parse_digits false 0 cs
      else if Ascii.eqb c "+" then parse_digits false 0 cs
      else parse_digits false 0 (c :: cs)
  | [] => None
  end.

(** *** [repr(...)] of a [str]

    Double quotes when the text has a single quote and no double quote,
    single quotes otherwise; the quote in use, the backslash and the
    control characters are escaped. *)

Definition hex_digit (n : nat) : ascii :=
  ascii_of_nat (if Nat.ltb n 10 then 48 + n else 87 + n).

Definition backslash : ascii := ascii_of_nat 92.
Definition single_quote : ascii := ascii_of_nat 39.
Definition double_quote : ascii := ascii_of_nat 34.

Definition escape_char (quote c : ascii) : list ascii :=
  let n := nat_of_ascii c in
  if Ascii.eqb c backslash then [backslash; backslash]
  else if Ascii.eqb c quote then [backslash; c]
  else if Nat.eqb n 10 then [backslash; "n"%char]
  else if Nat.eqb n 13 then [backslash; "r"%char]
  else if Nat.eqb n 9 then [backslash; "t"%char]
  else if (Nat.ltb n 32 || Nat.eqb n 127)%bool
       then [backslash; "x"%char; hex_digit (n / 16); hex_digit (n mod 16)]
  else [c].

Definition has_char (c : ascii) (cs : list ascii) : bool :=
  existsb (Ascii.eqb c) cs.

Definition py_repr (s : string) : string :=
  let cs := list_ascii_of_string s in
  let quote : ascii :=
    if (has_char single_quote cs && negb (has_char double_quote cs))%bool
    then double_quote else single_quote in
  string_of_list_ascii
    (quote :: flat_map (escape_char quote) cs ++ [quote]).

Definition py_int (v : pyval) : result Z :=
  match v with
  | PyInt z => Ok z
  | PyBool b => Ok (if b then 1 else 0)
  | PyStr s =>
      match parse_int_literal s with
      | Some z => Ok z
      | None =>
          Raise (Exn "ValueError"
                   ("invalid literal for int() with base 10: " +:+ py_repr s))
      end
  | PyNone =>
      Raise (Exn "TypeError"
               "int() argument must be a string, a bytes-like object or a real number, not 'NoneType'")
  end.

(** [d[key]]: raises [KeyError] when the key is missing. *)
Definition dict_item (d : row) (key : string) : result pyval :=
  match d !! key with
  | Some v => Ok v
  | None => Raise (Exn "KeyError" (py_repr key))
  end.

(** *** discord.py's HTTP errors

    [Forbidden], [NotFound] and the other subclasses of [HTTPException];
    [str(e)] is the status line, the error code and, when there is one,
    the text of the response. *)
Record http_error := HTTPError {
  http_class : string;
  http_status : Z;
  http_reason : string;
  http_code : Z;
  http_text : string
}.

Definition http_str (e : http_error) : string :=
  str_of_Z (http_status e) +:+ " " +:+ http_reason e
    +:+ " (error code: " +:+ str_of_Z (http_code e) +:+ ")"
    +:+ (if String.eqb (http_text e) "" then "" else ": " +:+ http_text e).

Definition exn_of_http (e : http_error) : exn :=
  Exn (http_class e) (http_str e).

(** ** The world the bot runs in *)

(** [discord.Embed]. *)
Record embed := Embed {
  title : string;
  description : option string;
  color : Z;
  fields : list (string * string);
  footer : option string
}.

Definition add_field (name value : string) (e : embed) : embed :=
  Embed (title e) (description e) (color e) (fields e ++ [(name, value)]) (footer e).
Definition set_description (d : string) (e : embed) : embed :=
  Embed (title e) (Some d) (color e) (fields e) (footer e).
Definition set_color (c : Z) (e : embed) : embed :=
  Embed (title e) (description e) c (fields e) (footer e).
Definition set_footer (t : string) (e : embed) : embed :=
  Embed (title e) (description e) (color e) (fields e) (Some t).

(** What the guild knows of one member. *)
Record member_info := Member {
  m_name : string;
  m_roles : gset Z;      (* ids of the roles the guild has given the member *)
  m_cached : bool        (* is the member in the bot's member cache *)
}.

(** A [discord.Member] object. *)
Inductive handle :=
| Cached (id : Z)
    (* the object in the guild's cache *)
| Fetched (id : Z) (name : string) (roles : gset Z).
    (* an object built from a response, with the roles it was built with *)

(** What can stand for [member] in [assign_role_to_member(member)]: a
    [discord.Member], or the [discord.User] who wrote a direct message. *)
Inductive author_obj :=
| MemberObj (member : handle)
| UserObj (id : Z).

Coercion MemberObj : handle >-> author_obj.

Definition handle_id (h : handle) : Z :=
  match h with
  | Cached id => id
  | Fetched id _ _ => id
  end.

(** The two services.  The [*_fault] fields say which remote calls are
    refused, and with which exception; they change only from outside. *)
Record World := mkWorld {
  guild_id : Z;                          (* the guild the bot has joined *)
  role_catalog : gset Z;                 (* ids of the guild's roles *)
  members : gmap Z member_info;          (* who is in the guild *)
  unseen : gmap Z (gset Z);              (* roles given that the cache
                                            does not show yet *)
  fetch_fault : Z -> option exn;         (* [guild.fetch_member(id)] *)
  grant_fault : Z -> Z -> option http_error;
                                         (* [member.add_roles(role)] *)
  dm_fault : Z -> option exn;            (* [member.send(...)] *)
  channel_fault : option exn;            (* [ctx.send], [ctx.reply], [msg.edit] *)
  users_by_discord_id : string -> result (list row);
                                         (* [users] where [discord_id] = id *)
  passed_users : result (list row)       (* [users] where [status] = passed *)
}.

Definition set_guild (ms : gmap Z member_info) (us : gmap Z (gset Z))
    (w : World) : World :=
  mkWorld (guild_id w) (role_catalog w) ms us (fetch_fault w) (grant_fault w)
    (dm_fault w) (channel_fault w) (users_by_discord_id w) (passed_users w).

Definition set_dm_fault (f : Z -> option exn) (w : World) : World :=
  mkWorld (guild_id w) (role_catalog w) (members w) (unseen w) (fetch_fault w)
    (grant_fault w) f (channel_fault w) (users_by_discord_id w) (passed_users w).

(** A request that changes or says something, or a line the bot prints. *)
Inductive event :=
| AddRoles (member role : Z)
| DirectMessage (member : Z) (e : embed)
| ChannelSend (content : string)
| Reply (e : embed)
| EditMessage (e : embed)
| Print (line : string).

Record state := mkState { world : World; trace : list event }.

(** ** The monad of coroutines *)

Definition M (A : Type) : Type := state -> result A * state.

Definition ret {A} (a : A) : M A := fun st => (Ok a, st).

Definition bind {A B} (c : M A) (k : A -> M B) : M B :=
  fun st =>
    match c st with
    | (Ok a, st') => k a st'
    | (Raise e, st') => (Raise e, st')
    end.

Definition raise {A} (e : exn) : M A := fun st => (Raise e, st).

(** [try: c except ... as e: h e]. *)
Definition try_except {A} (c : M A) (h : exn -> M A) : M A :=
  fun st =>
    match c st with
    | (Ok a, st') => (Ok a, st')
    | (Raise e, st') => h e st'
    end.

Definition lift {A} (r : result A) : M A := fun st => (r, st).
Definition get_world : M World := fun st => (Ok (world st), st).
Definition put_world (w : World) : M unit :=
  fun st => (Ok tt, mkState w (trace st)).
Definition emit (e : event) : M unit :=
  fun st => (Ok tt, mkState (world st) (trace st ++ [e])).
Definition print (line : string) : M unit := emit (Print line).

(** A remote call that either is refused or has no result. *)
Definition refuse_if (f : option exn) : M unit :=
  match f with
  | Some e => raise e
  | None => ret tt
  end.

Declare Scope coroutine_scope.
Delimit Scope coroutine_scope with coroutine.
Notation "x <- c ;; k" := (bind c (fun x => k))
  (at level 100, c at next level, right associativity) : coroutine_scope.
Notation "c ;; k" := (bind c (fun _ => k))
  (at level 100, right associativity) : coroutine_scope.
Local Open Scope coroutine_scope.

(** ** The Discord and Supabase calls the bot makes *)

(** [bot.get_guild(id)]: the guild, when the bot has joined it. *)
Definition get_guild (w : World) (id : Z) : option unit :=
  if decide (id = guild_id w) then Some tt else None.

(** [guild.get_role(id)]. *)
Definition get_role (w : World) (id : Z) : option Z :=
  if decide (id ∈ role_catalog w) then Some id else None.

(** [guild.get_member(id)]: a cache lookup. *)
Definition get_member (w : World) (id : Z) : option handle :=
  match members w !! id with
  | Some mi => if m_cached mi then Some (Cached id) else None
  | None => None
  end.

(** The roles the guild has given a member. *)
Definition roles_of (w : World) (member : Z) : gset Z :=
  match members w !! member with
  | Some mi => m_roles mi
  | None => ∅
  end.

Definition unseen_of (w : World) (member : Z) : gset Z :=
  default ∅ (unseen w !! member).

Definition member_name (w : World) (member : Z) : string :=
  match members w !! member with
  | Some mi => m_name mi
  | None => ""
  end.

(** [member.roles]: what the cache shows for the cache's object, what it
    was built with for any other. *)
Definition handle_roles (w : World) (h : handle) : gset Z :=
  match h with
  | Cached id => roles_of w id ∖ unseen_of w id
  | Fetched _ _ roles => roles
  end.

(** [member.name]. *)
Definition handle_name (w : World) (h : handle) : string :=
  match h with
  | Cached id => member_name w id
  | Fetched _ name _ => name
  end.

Definition unknown_member : exn :=
  exn_of_http (HTTPError "NotFound" 404 "Not Found" 10007 "Unknown Member").

(** Why [guild.fetch_member(id)] would raise, if it would. *)
Definition fetch_member_fault (w : World) (id : Z) : option exn :=
  match fetch_fault w id with
  | Some e => Some e
  | None =>
      match members w !! id with
      | Some _ => None
      | None => Some unknown_member
      end
  end.

(** [await guild.fetch_member(id)]: a member object built from the
    guild's answer. *)
Definition fetch_member (id : Z) : M handle :=
  w <- get_world ;;
  refuse_if (fetch_member_fault w id) ;;
  ret (Fetched id (member_name w id) (roles_of w id)).

(** Why [member.add_roles(role)] would raise, if it would. *)
Definition add_roles_fault (w : World) (member role : Z) : option exn :=
  match members w !! member with
  | Some _ => exn_of_http <$> grant_fault w member role
  | None => Some unknown_member
  end.

Definition grant (role : Z) (mi : member_info) : member_info :=
  Member (m_name mi) (m_roles mi ∪ {[role]}) (m_cached mi).

(** The guild after it has accepted [add_roles(role)] for a member: a
    role the member holds already changes nothing; a new one is given,
    and the cache does not show it yet. *)
Definition grant_in (role member : Z) (w : World) : World :=
  if decide (role ∈ roles_of w member) then w
  else
    set_guild (alter (grant role) member (members w))
      (<[member := unseen_of w member ∪ {[role]}]> (unseen w)) w.

(** [await member.add_roles(role)]. *)
Definition add_roles (member : handle) (role : Z) : M unit :=
  emit (AddRoles (handle_id member) role) ;;
  w <- get_world ;;
  refuse_if (add_roles_fault w (handle_id member) role) ;;
  put_world (grant_in role (handle_id member) w).

(** The gateway's member update reaching the bot: the cache now shows
    the member's roles as the guild has them. *)
Definition member_update (member : Z) (st : state) : state :=
  mkState
    (set_guild (members (world st)) (delete member (unseen (world st))) (world st))
    (trace st).

(** [await member.send(embed=e)]. *)
Definition member_send (member : handle) (e : embed) : M unit :=
  emit (DirectMessage (handle_id member) e) ;;
  w <- get_world ;;
  refuse_if (dm_fault w (handle_id member)).

(** [await ctx.send(content)]. *)
Definition ctx_send (content : string) : M unit :=
  emit (ChannelSend content) ;;
  w <- get_world ;;
  refuse_if (channel_fault w).

(** [await ctx.reply(embed=e)]. *)
Definition ctx_reply (e : embed) : M unit :=
  emit (Reply e) ;;
  w <- get_world ;;
  refuse_if (channel_fault w).

(** [await status_msg.edit(content=None, embed=e)]. *)
Definition message_edit (e : embed) : M unit :=
  emit (EditMessage e) ;;
  w <- get_world ;;
  refuse_if (channel_fault w).

(** [supabase.table('users').select('*').eq('discord_id', id).execute().data] *)
Definition select_user (discord_id : string) : M (list row) :=
  w <- get_world ;;
  lift (users_by_discord_id w discord_id).

(** [supabase.table('users').select('discord_id').eq('status', 'passed').execute().data] *)
Definition select_passed : M (list row) :=
  w <- get_world ;;
  lift (passed_users w).

(** ** The bot *)

Section Bot.

(** Module-level configuration, read from the environment at start-up;
    an unset variable reads as [0]. *)
Variable GUILD_ID : Z.
Variable ALLOWLIST_ROLE_ID : Z.

(** [member.guild]: a [discord.User] has no such attribute. *)
Definition member_guild (member : author_obj) : result handle :=
  match member with
  | MemberObj h => Ok h
  | UserObj _ => Raise (Exn "AttributeError" "'User' object has no attribute 'guild'")
  end.

(** [assign_role_to_member(member)] *)
Definition assign_role_to_member (member : author_obj) : M (bool * string) :=
  if (ALLOWLIST_ROLE_ID =? 0)%Z then ret (false, "Role ID not configured")
  else
    h <- lift (member_guild member) ;;
    w <- get_world ;;
    match get_role w ALLOWLIST_ROLE_ID with
    | None => ret (false, "Role not found in server")
    | Some role =>
        if decide (role ∈ handle_roles w h) then ret (true, "Already has role")
        else
          try_except
            (add_roles h role ;;
             ret (true, "Role assigned"))
            (fun e =>
               print ("[Bot] Error assigning role to " +:+ handle_name w h
                        +:+ ": " +:+ exn_text e) ;;
               ret (false, exn_text e))
    end.

(** The realtime feed hands [on_handle] a payload; all it reads of it is
    the value under ['record']. *)
Record payload := Payload { record : option row }.

(** [if not d:] for an optional [dict]: [None] and the empty [dict] are
    both false. *)
Definition nonempty (d : option row) : option row :=
  match d with
  | Some r => if decide (r = ∅) then None else Some r
  | None => None
  end.

(** [asyncio.run_coroutine_threadsafe(c, bot.loop)]: the coroutine is
    handed to the bot's loop, which runs it; an exception it raises stays
    in the returned future, which nobody reads. *)
Definition run_coroutine_threadsafe (c : M unit) : M unit :=
  try_except c (fun _ => ret tt).

Definition congratulation : embed :=
  set_footer "Welcome to Elite India Roleplay!"
    (add_field "Status" "✅ Allowlisted"
       (Embed "🎉 Congratulations!"
          (Some "You have passed the Elite India Roleplay allowlist quiz!")
          0x00ff88 [] None)).

(** [auto_assign_role(discord_id)] *)
Definition auto_assign_role (discord_id : pyval) : M unit :=
  w <- get_world ;;
  match get_guild w GUILD_ID with
  | None => print ("[Bot] Guild " +:+ str_of_Z GUILD_ID +:+ " not found")
  | Some guild =>
      id <- lift (py_int discord_id) ;;
      found <-
        match get_member w id with
        | Some member => ret (Some member)
        | None =>
            try_except
              (id' <- lift (py_int discord_id) ;;
               member <- fetch_member id' ;;
               ret (Some member))
              (fun _ =>
                 print ("[Bot] User " +:+ py_str discord_id +:+ " not in server") ;;
                 ret None)
        end ;;
      match found with
      | None => ret tt
      | Some member =>
          r <- assign_role_to_member member ;;
          let '(success, reason) := r in
          if success : bool then
            print ("[Bot] Auto-role: Assigned to " +:+ handle_name w member
                     +:+ " (" +:+ reason +:+ ")") ;;
            try_except (member_send member congratulation) (fun _ => ret tt)
          else ret tt
      end
  end.

(** [on_handle(payload)], the callback of the realtime subscription. *)
Definition on_handle (p : payload) : M unit :=
  match nonempty (record p) with
  | None => ret tt
  | Some new_record =>
      let is_passed := dict_get new_record "passed" in
      let discord_id := dict_get new_record "discord_id" in
      if (truthy is_passed && truthy discord_id)%bool then
        print ("[Bot] Realtime: User " +:+ py_str discord_id +:+ " passed!") ;;
        run_coroutine_threadsafe (auto_assign_role discord_id)
      else ret tt
  end.

(** The invocation context of a command: in the guild, where the author
    is a member who may hold the administrator permission, or in a
    direct message, where the author is a plain user and holds none. *)
Inductive Ctx :=
| GuildCtx (member : handle) (is_administrator : bool)
| DMCtx (user : Z).

(** [ctx.author] *)
Definition author (ctx : Ctx) : author_obj :=
  match ctx with
  | GuildCtx member _ => MemberObj member
  | DMCtx user => UserObj user
  end.

(** [ctx.author.id] *)
Definition author_id (ctx : Ctx) : Z :=
  match ctx with
  | GuildCtx member _ => handle_id member
  | DMCtx user => user
  end.

Definition administrator (ctx : Ctx) : bool :=
  match ctx with
  | GuildCtx _ is_administrator => is_administrator
  | DMCtx _ => false
  end.

(** [role_status] in [verify]. *)
Definition role_status (success : bool) (reason : string) : string :=
  if String.eqb reason "Role assigned" then "✅ Assigned!"
  else if success then "✅ Already assigned"
  else "⚠️ " +:+ reason.

(** [verify(ctx)] *)
Definition verify (ctx : Ctx) : M unit :=
  let discord_id := str_of_Z (author_id ctx) in
  data <- select_user discord_id ;;
  let user_data := nonempty (head data) in
  let embed := Embed "🎮 Elite India Roleplay - Verification" None 0x9b4dca [] None in
  embed <-
    match user_data with
    | None =>
        ret (add_field "Next Steps"
               "Visit the website and login with Discord to take the quiz."
               (set_color 0xff4757
                  (set_description
                     "❌ You have not registered on the quiz website yet." embed)))
    | Some user_data =>
        if decide (dict_get user_data "status" = PyStr "passed") then
          let embed :=
            set_color 0x00ff88
              (set_description "✅ You have passed the allowlist quiz!" embed) in
          r <- assign_role_to_member (author ctx) ;;
          let '(success, reason) := r in
          ret (add_field "Role Status" (role_status success reason) embed)
        else
          ret (add_field "Next Steps" "Visit the website to take/retry the quiz."
                 (set_description "⏳ You have not passed the quiz yet." embed))
    end ;;
  ctx_reply embed.

(** The four counters of [sync]. *)
Record counters := Counters {
  assigned : nat;
  already_had : nat;
  failed : nat;
  not_in_server : nat
}.

Definition total (c : counters) : nat :=
  (assigned c + already_had c + failed c + not_in_server c)%nat.

(** One turn of the [for user in passed_users] loop. *)
Definition sync_user (user : row) (c : counters) : M counters :=
  v <- lift (dict_item user "discord_id") ;;
  d_id <- lift (py_int v) ;;
  w <- get_world ;;
  found <-
    match get_member w d_id with
    | Some member => ret (Some member)
    | None =>
        try_except (member <- fetch_member d_id ;; ret (Some member))
          (fun _ => ret None)
    end ;;
  match found with
  | None =>
      ret (Counters (assigned c) (already_had c) (failed c) (not_in_server c + 1))
  | Some member =>
      r <- assign_role_to_member member ;;
      let '(success, reason) := r in
      if success : bool then
        if String.eqb reason "Already has role"
        then ret (Counters (assigned c) (already_had c + 1) (failed c) (not_in_server c))
        else ret (Counters (assigned c + 1) (already_had c) (failed c) (not_in_server c))
      else ret (Counters (assigned c) (already_had c) (failed c + 1) (not_in_server c))
  end.

Fixpoint sync_loop (passed_users : list row) (c : counters) : M counters :=
  match passed_users with
  | [] => ret c
  | user :: rest => c' <- sync_user user c ;; sync_loop rest c'
  end.

Definition sync_report (c : counters) : embed :=
  add_field "👻 Not in Server" (str_of_nat (not_in_server c))
    (add_field "❌ Failed" (str_of_nat (failed c))
       (add_field "✔️ Already Had Role" (str_of_nat (already_had c))
          (add_field "✅ Newly Assigned" (str_of_nat (assigned c))
             (Embed "✅ Sync Complete" None 0x00ff88 [] None)))).

(** [@commands.has_permissions(administrator=True)]: the check runs before
    the command's body. *)
Definition has_permissions_administrator (ctx : Ctx) (body : M unit) : M unit :=
  if administrator ctx then body
  else raise (Exn "MissingPermissions"
                "You are missing Administrator permission(s) to run this command.").

(** [sync(ctx)] *)
Definition sync (ctx : Ctx) : M unit :=
  has_permissions_administrator ctx
    (ctx_send "🔄 Syncing roles for all passed users..." ;;
     passed_users <- select_passed ;;
     c <- sync_loop passed_users (Counters 0 0 0 0) ;;
     message_edit (sync_report c)).

End Bot.

(** * The vocabulary of the properties *)

(** The two reason strings the callers compare against. *)
Definition success_reason (s : string) : Prop :=
  s = "Already has role" \/ s = "Role assigned".

(** The state after a successful [add_roles]. *)
Definition granted (role member : Z) (st : state) : state :=
  mkState (grant_in role member (world st)) (trace st ++ [AddRoles member role]).

(** The state after a refused [add_roles]: the request and the log line. *)
Definition refused (role : Z) (member : handle) (e : exn) (st : state) : state :=
  mkState (world st)
    ((trace st ++ [AddRoles (handle_id member) role]) ++
       [Print ("[Bot] Error assigning role to "
                 +:+ handle_name (world st) member +:+ ": " +:+ exn_text e)]).

(** [evolves role P st st'] says that [st'] comes from [st] by granting
    [role] to some members and issuing requests that satisfy [P]: the
    services are otherwise the same, nobody joins or leaves, no role set
    shrinks, and the cache goes on showing what it showed. *)
Definition evolves (role : Z) (P : event -> Prop) (st st' : state) : Prop :=
  world st' = set_guild (members (world st')) (unseen (world st')) (world st)
  /\ (forall id,
         members (world st') !! id = members (world st) !! id
         \/ exists mi, members (world st) !! id = Some mi
                       /\ members (world st') !! id = Some (grant role mi))
  /\ (forall id r,
         r ∈ handle_roles (world st) (Cached id) ->
         r ∈ handle_roles (world st') (Cached id))
  /\ exists evs, trace st' = trace st ++ evs /\ Forall P evs.

(** A coroutine respects [R] when, whatever its result, the state it ends
    in is [R]-related to the one it started from. *)
Definition respects (R : state -> state -> Prop) {A} (c : M A) : Prop :=
  forall st, R st (c st).2.

(** Every request but the private message. *)
Definition no_dm (e : event) : Prop :=
  match e with
  | DirectMessage _ _ => False
  | _ => True
  end.

(** The member object [get_member], or failing that [fetch_member],
    produces, if any. *)
Definition resolve (w : World) (id : Z) : option handle :=
  match members w !! id with
  | Some mi =>
      if m_cached mi then Some (Cached id)
      else match fetch_fault w id with
           | None => Some (Fetched id (m_name mi) (m_roles mi))
           | Some _ => None
           end
  | None => None
  end.

(** Can [get_member], or failing that [fetch_member], produce the member. *)
Definition resolves (w : World) (id : Z) : bool :=
  match members w !! id with
  | Some mi =>
      if m_cached mi then true
      else match fetch_fault w id with
           | None => true
           | Some _ => false
           end
  | None => false
  end.

(** The member can be had from the cache or by a fetch. *)
Definition reachable (w : World) (id : Z) (mi : member_info) : Prop :=
  members w !! id = Some mi /\ (m_cached mi = true \/ fetch_fault w id = None).

(** What [auto_assign_role] does once it has found the member. *)
Definition after_assign (w : World) (member : handle)
    (r : result (bool * string) * state) : result unit * state :=
  match r with
  | (Ok (true, reason), st') =>
      (Ok tt,
       mkState (world st')
         (trace st'
          ++ [Print ("[Bot] Auto-role: Assigned to " +:+ handle_name w member
                       +:+ " (" +:+ reason +:+ ")");
              DirectMessage (handle_id member) congratulation]))
  | (Ok (false, _), st') => (Ok tt, st')
  | (Raise e, st') => (Raise e, st')
  end.

(** The run of [auto_assign_role], branch by branch. *)
Definition auto_assign_role_run (guild role : Z) (discord_id : pyval)
    (st : state) : result unit * state :=
  if decide (guild = guild_id (world st)) then
    match py_int discord_id with
    | Ok id =>
        match resolve (world st) id with
        | Some member =>
            after_assign (world st) member (assign_role_to_member role member st)
        | None =>
            (Ok tt,
             mkState (world st)
               (trace st ++ [Print ("[Bot] User " +:+ py_str discord_id
                                      +:+ " not in server")]))
        end
    | Raise e => (Raise e, st)
    end
  else
    (Ok tt,
     mkState (world st)
       (trace st ++ [Print ("[Bot] Guild " +:+ str_of_Z guild +:+ " not found")])).

(** How often the private message was attempted. *)
Fixpoint dm_count (evs : list event) : nat :=
  match evs with
  | DirectMessage _ _ :: evs' => S (dm_count evs')
  | _ :: evs' => dm_count evs'
  | [] => 0
  end.

(** The state after delivering [p] twice, with nothing in between. *)
Definition delivered_twice (guild role : Z) (p : payload) (st : state) : state :=
  (on_handle guild role p (on_handle guild role p st).2).2.

(** The lines and requests of one delivery. *)
Definition realtime_line (discord_id : pyval) : event :=
  Print ("[Bot] Realtime: User " +:+ py_str discord_id +:+ " passed!").
Definition assigned_line (name reason : string) : event :=
  Print ("[Bot] Auto-role: Assigned to " +:+ name +:+ " (" +:+ reason +:+ ")").

(** The same state, with other answers to [member.send]. *)
Definition with_dm_fault (f : Z -> option exn) (st : state) : state :=
  mkState (set_dm_fault f (world st)) (trace st).

(** What can happen to the engine: its entry points, and the gateway
    bringing the cache up to date for a member. *)
Inductive operation :=
| Deliver (p : payload)               (* the feed calls [on_handle] *)
| AutoAssign (discord_id : pyval)     (* [auto_assign_role] on its own *)
| EnsureGranted (member : author_obj) (* [assign_role_to_member] on its own *)
| Verify (ctx : Ctx)
| Sync (ctx : Ctx)
| GatewayUpdate (member : Z).

Definition perform (guild role : Z) (op : operation) (st : state) : state :=
  match op with
  | Deliver p => (on_handle guild role p st).2
  | AutoAssign discord_id => (auto_assign_role guild role discord_id st).2
  | EnsureGranted member => (assign_role_to_member role member st).2
  | Verify ctx => (verify role ctx st).2
  | Sync ctx => (sync role ctx st).2
  | GatewayUpdate member => member_update member st
  end.

Fixpoint perform_all (guild role : Z) (ops : list operation) (st : state) : state :=
  match ops with
  | [] => st
  | op :: ops' => perform_all guild role ops' (perform guild role op st)
  end.

(** [int(user['discord_id'])]. *)
Definition identity_of (user : row) : result Z :=
  match dict_item user "discord_id" with
  | Ok v => py_int v
  | Raise e => Raise e
  end.

Definition has_identity (user : row) : bool :=
  match identity_of user with
  | Ok _ => true
  | Raise _ => false
  end.

(** The counter a result of [assign_role_to_member] goes to. *)
Definition tally (c : counters) (success : bool) (reason : string) : counters :=
  if success then
    if String.eqb reason "Already has role"
    then Counters (assigned c) (already_had c + 1) (failed c) (not_in_server c)
    else Counters (assigned c + 1) (already_had c) (failed c) (not_in_server c)
  else Counters (assigned c) (already_had c) (failed c + 1) (not_in_server c).

Definition absent (c : counters) : counters :=
  Counters (assigned c) (already_had c) (failed c) (not_in_server c + 1).

(** The run of one turn of the loop, branch by branch. *)
Definition sync_user_run (role : Z) (user : row) (c : counters) (st : state)
    : result counters * state :=
  match identity_of user with
  | Ok d_id =>
      match resolve (world st) d_id with
      | Some member =>
          match assign_role_to_member role member st with
          | (Ok (success, reason), st') => (Ok (tally c success reason), st')
          | (Raise e, st') => (Raise e, st')
          end
      | None => (Ok (absent c), st)
      end
  | Raise e => (Raise e, st)
  end.

Definition syncing : event := ChannelSend "🔄 Syncing roles for all passed users...".

Definition missing_permissions : exn :=
  Exn "MissingPermissions"
    "You are missing Administrator permission(s) to run this command.".

Definition no_guild_attribute : exn :=
  Exn "AttributeError" "'User' object has no attribute 'guild'".

(** The run of [sync], branch by branch. *)
Definition sync_run (role : Z) (ctx : Ctx) (st : state) : result unit * state :=
  if administrator ctx then
    let st1 := mkState (world st) (trace st ++ [syncing]) in
    match channel_fault (world st) with
    | Some e => (Raise e, st1)
    | None =>
        match passed_users (world st) with
        | Raise e => (Raise e, st1)
        | Ok users =>
            match sync_loop role users (Counters 0 0 0 0) st1 with
            | (Raise e, st2) => (Raise e, st2)
            | (Ok c, st2) =>
                let st3 :=
                  mkState (world st2) (trace st2 ++ [EditMessage (sync_report c)]) in
                match channel_fault (world st2) with
                | Some e => (Raise e, st3)
                | None => (Ok tt, st3)
                end
            end
        end
    end
  else (Raise missing_permissions, st).

Definition verification : embed :=
  Embed "🎮 Elite India Roleplay - Verification" None 0x9b4dca [] None.

Definition unregistered_embed : embed :=
  add_field "Next Steps" "Visit the website and login with Discord to take the quiz."
    (set_color 0xff4757
       (set_description "❌ You have not registered on the quiz website yet."
          verification)).

Definition passed_embed (status : string) : embed :=
  add_field "Role Status" status
    (set_color 0x00ff88
       (set_description "✅ You have passed the allowlist quiz!" verification)).

Definition pending_embed : embed :=
  add_field "Next Steps" "Visit the website to take/retry the quiz."
    (set_description "⏳ You have not passed the quiz yet." verification).

(** The run of [verify], branch by branch. *)
Definition verify_run (role : Z) (ctx : Ctx) (st : state) : result unit * state :=
  match users_by_discord_id (world st) (str_of_Z (author_id ctx)) with
  | Ok data =>
      match nonempty (head data) with
      | None => ctx_reply unregistered_embed st
      | Some user_data =>
          if decide (dict_get user_data "status" = PyStr "passed") then
            match assign_role_to_member role (author ctx) st with
            | (Ok (success, reason), st') =>
                ctx_reply (passed_embed (role_status success reason)) st'
            | (Raise e, st') => (Raise e, st')
            end
          else ctx_reply pending_embed st
      end
  | Raise e => (Raise e, st)
  end.

(** Two calls in sequence, with nothing in between: a new grant, then
    "already has role", with the same role set after either. *)
Definition granted_then_already (role : Z) (member : handle) (st : state) : Prop :=
  exists st1 st2,
    assign_role_to_member role member st = (Ok (true, "Role assigned"), st1)
    /\ assign_role_to_member role member st1 = (Ok (true, "Already has role"), st2)
    /\ roles_of (world st1) (handle_id member) = roles_of (world st2) (handle_id member).

(** The pairing C10 states: the flag is set exactly when the reason is one
    of the two success strings. *)
Definition success_iff_reason (r : bool * string) : Prop :=
  r.1 = true <-> success_reason r.2.

(** Does [on_handle] act on the payload: a record that is there and not
    empty, whose [passed] and [discord_id] both count as true. *)
Definition relevant (p : payload) : bool :=
  match nonempty (record p) with
  | Some new_record =>
      (truthy (dict_get new_record "passed")
       && truthy (dict_get new_record "discord_id"))%bool
  | None => false
  end.

(** The value [on_handle] reads as the identity. *)
Definition discord_id_of (p : payload) : pyval :=
  match record p with
  | Some new_record => dict_get new_record "discord_id"
  | None => PyNone
  end.

(** How often [add_roles] was called. *)
Fixpoint mutation_count (evs : list event) : nat :=
  match evs with
  | AddRoles _ _ :: evs' => S (mutation_count evs')
  | _ :: evs' => mutation_count evs'
  | [] => 0
  end.

(** How often [add_roles] was called for one member. *)
Fixpoint grants_to (member : Z) (evs : list event) : nat :=
  match evs with
  | AddRoles m _ :: evs' =>
      if decide (m = member) then S (grants_to member evs') else grants_to member evs'
  | _ :: evs' => grants_to member evs'
  | [] => 0
  end.

(** How many rows of the listing name one member. *)
Fixpoint listed_times (member : Z) (users : list row) : nat :=
  match users with
  | user :: users' =>
      match identity_of user with
      | Ok d_id =>
          if decide (d_id = member) then S (listed_times member users')
          else listed_times member users'
      | Raise _ => listed_times member users'
      end
  | [] => 0
  end.

(** [n] calls of [assign_role_to_member] in a row: their results, oldest
    first, and the state they leave. *)
Fixpoint assign_repeatedly (role : Z) (member : handle) (n : nat) (st : state)
    : list (result (bool * string)) * state :=
  match n with
  | O => ([], st)
  | S n' =>
      let '(r, st1) := assign_role_to_member role member st in
      let '(rs, st2) := assign_repeatedly role member n' st1 in
      (r :: rs, st2)
  end.

(** Nothing is left for a sweep to grant to [user]: when the user can be
    resolved, the role is unset or unknown to the guild, or the guild has
    given it to the user, or the guild refuses the grant. *)
Definition settled (role : Z) (w : World) (user : row) : Prop :=
  forall d_id,
    identity_of user = Ok d_id ->
    resolves w d_id = true ->
    role = 0 \/ role ∉ role_catalog w \/ role ∈ roles_of w d_id
    \/ add_roles_fault w d_id role <> None.

(** Every pending member update has arrived: the cache shows the roles
    as the guild has them. *)
Definition refreshed (st : state) : state :=
  mkState (set_guild (members (world st)) ∅ (world st)) (trace st).

(** The backend's answer holds a record, not empty, whose status is
    "passed": the branch of [verify] that assigns the role. *)
Definition passed_record (data : list row) : Prop :=
  exists user_data,
    nonempty (head data) = Some user_data
    /\ dict_get user_data "status" = PyStr "passed".

(** The command was sent in a direct message. *)
Definition in_direct_message (ctx : Ctx) : Prop :=
  match ctx with
  | DMCtx _ => True
  | GuildCtx _ _ => False
  end.

(** ** Scenarios *)

Definition forbidden_error : http_error :=
  HTTPError "Forbidden" 403 "Forbidden" 50013 "Missing Permissions".

Definition forbidden : exn := exn_of_http forbidden_error.

(** Guild 1 with role 7.  Ann (42) is cached and lacks the role, Bob (43)
    holds it and is not cached.  Both have passed; the backend also lists
    a user 99 who is not in the guild. *)
Definition quiz_guild : World :=
  mkWorld 1 {[7]}
    (<[42 := Member "ann" ∅ true]> (<[43 := Member "bob" {[7]} false]> ∅)) ∅
    (fun _ => None) (fun _ _ => None) (fun _ => None) None
    (fun id => if String.eqb id "42" then Ok [<["status" := PyStr "passed"]> ∅]
               else Ok [])
    (Ok [<["discord_id" := PyStr "42"]> ∅; <["discord_id" := PyStr "99"]> ∅;
         <["discord_id" := PyStr "43"]> ∅]).

(** The same guild, where the bot may not manage the role. *)
Definition locked_guild : World :=
  mkWorld 1 {[7]} (members quiz_guild) ∅
    (fun _ => None) (fun _ _ => Some forbidden_error) (fun _ => None) None
    (users_by_discord_id quiz_guild) (passed_users quiz_guild).

(** The same guild, after role 7 was deleted from it. *)
Definition roleless_guild : World :=
  mkWorld 1 ∅ (members quiz_guild) ∅
    (fun _ => None) (fun _ _ => None) (fun _ => None) None
    (users_by_discord_id quiz_guild) (passed_users quiz_guild).

(** The same guild, where the bot may not write in the command channel. *)
Definition muted_guild : World :=
  mkWorld 1 {[7]} (members quiz_guild) ∅
    (fun _ => None) (fun _ _ => None) (fun _ => None) (Some forbidden)
    (users_by_discord_id quiz_guild) (passed_users quiz_guild).

(** The backend cannot be reached. *)
Definition backend_down : exn :=
  Exn "ConnectError" "[Errno 111] Connection refused".

Definition offline_backend_guild : World :=
  mkWorld 1 {[7]} (members quiz_guild) ∅
    (fun _ => None) (fun _ _ => None) (fun _ => None) None
    (fun _ => Raise backend_down) (Raise backend_down).

(** The listing holds a row whose [discord_id] is null, between Ann's and
    Bob's. *)
Definition unreadable_listing_guild : World :=
  mkWorld 1 {[7]} (members quiz_guild) ∅
    (fun _ => None) (fun _ _ => None) (fun _ => None) None
    (users_by_discord_id quiz_guild)
    (Ok [<["discord_id" := PyStr "42"]> ∅; <["discord_id" := PyNone]> ∅;
         <["discord_id" := PyStr "43"]> ∅]).

(** A feed event saying that user 42 has passed. *)
Definition ann_passed : payload :=
  Payload (Some (<["passed" := PyBool true]> (<["discord_id" := PyStr "42"]> ∅))).

(** Guild 1 where the backend lists Ann only. *)
Definition short_listing_guild : World :=
  mkWorld 1 {[7]} (members quiz_guild) ∅
    (fun _ => None) (fun _ _ => None) (fun _ => None) None
    (users_by_discord_id quiz_guild)
    (Ok [<["discord_id" := PyStr "42"]> ∅]).

(** Guild 1 where the backend lists Ann twice and the bot may not manage
    the role. *)
Definition double_listing_guild : World :=
  mkWorld 1 {[7]} (members quiz_guild) ∅
    (fun _ => None) (fun _ _ => Some forbidden_error) (fun _ => None) None
    (users_by_discord_id quiz_guild)
    (Ok [<["discord_id" := PyStr "42"]> ∅; <["discord_id" := PyInt 42]> ∅]).

(** Guild 1 where fetching a member times out, and where Bob (43), who is
    not cached, lacks the role. *)
Definition flaky_guild : World :=
  mkWorld 1 {[7]}
    (<[42 := Member "ann" ∅ true]> (<[43 := Member "bob" ∅ false]> ∅)) ∅
    (fun _ => Some (Exn "TimeoutError" "")) (fun _ _ => None) (fun _ => None) None
    (users_by_discord_id quiz_guild) (passed_users quiz_guild).

Arguments assign_role_to_member ALLOWLIST_ROLE_ID member st : simpl never.

(** * Properties *)

(** ** Reading the role assignment *)

(** Closed decidable facts, by evaluation. *)
Ltac by_decide := apply (bool_decide_unpack _); vm_compute; exact I.

Ltac unfold_monad :=
  unfold bind, ret, raise, lift, get_world, put_world, emit, print,
    refuse_if, try_except.

Lemma assign_unconfigured (member : author_obj) st :
  assign_role_to_member 0 member st = (Ok (false, "Role ID not configured"), st).
Proof. reflexivity. Qed.

Lemma assign_user role id st :
  role <> 0 ->
  assign_role_to_member role (UserObj id) st = (Raise no_guild_attribute, st).
Proof.
  intros Hcfg. unfold assign_role_to_member.
  apply Z.eqb_neq in Hcfg. by rewrite Hcfg.
Qed.

Lemma assign_role_missing role (member : handle) st :
  role <> 0 -> role ∉ role_catalog (world st) ->
  assign_role_to_member role member st = (Ok (false, "Role not found in server"), st).
Proof.
  intros Hcfg Hcat. unfold assign_role_to_member.
  apply Z.eqb_neq in Hcfg. rewrite Hcfg.
  unfold_monad. cbn [member_guild]. unfold get_role.
  rewrite decide_False by done. reflexivity.
Qed.

Lemma assign_already role (member : handle) st :
  role <> 0 -> role ∈ role_catalog (world st) ->
  role ∈ handle_roles (world st) member ->
  assign_role_to_member role member st = (Ok (true, "Already has role"), st).
Proof.
  intros Hcfg Hcat Hhas. unfold assign_role_to_member.
  apply Z.eqb_neq in Hcfg. rewrite Hcfg.
  unfold_monad. cbn [member_guild]. unfold get_role.
  rewrite decide_True by done. rewrite decide_True by done. reflexivity.
Qed.

Lemma assign_granted role (member : handle) st :
  role <> 0 -> role ∈ role_catalog (world st) ->
  role ∉ handle_roles (world st) member ->
  add_roles_fault (world st) (handle_id member) role = None ->
  assign_role_to_member role member st
  = (Ok (true, "Role assigned"), granted role (handle_id member) st).
Proof.
  intros Hcfg Hcat Hlacks Hfault. unfold assign_role_to_member.
  apply Z.eqb_neq in Hcfg. rewrite Hcfg.
  unfold_monad. cbn [member_guild]. unfold get_role.
  rewrite decide_True by done. rewrite decide_False by done.
  unfold add_roles. unfold_monad. cbn [world trace]. rewrite Hfault. reflexivity.
Qed.

Lemma assign_refused role (member : handle) st e :
  role <> 0 -> role ∈ role_catalog (world st) ->
  role ∉ handle_roles (world st) member ->
  add_roles_fault (world st) (handle_id member) role = Some e ->
  assign_role_to_member role member st
  = (Ok (false, exn_text e), refused role member e st).
Proof.
  intros Hcfg Hcat Hlacks Hfault. unfold assign_role_to_member.
  apply Z.eqb_neq in Hcfg. rewrite Hcfg.
  unfold_monad. cbn [member_guild]. unfold get_role.
  rewrite decide_True by done. rewrite decide_False by done.
  unfold add_roles. unfold_monad. cbn [world trace]. rewrite Hfault. reflexivity.
Qed.

(** Every call for a member falls in one of the five cases above. *)
Lemma assign_cases role (member : handle) st :
  (role = 0 /\
   assign_role_to_member role member st = (Ok (false, "Role ID not configured"), st))
  \/ (role <> 0 /\ (role ∉ role_catalog (world st)) /\
      assign_role_to_member role member st
      = (Ok (false, "Role not found in server"), st))
  \/ (role <> 0 /\ (role ∈ role_catalog (world st)) /\
      (role ∈ handle_roles (world st) member) /\
      assign_role_to_member role member st = (Ok (true, "Already has role"), st))
  \/ (role <> 0 /\ (role ∈ role_catalog (world st)) /\
      (role ∉ handle_roles (world st) member) /\
      add_roles_fault (world st) (handle_id member) role = None /\
      assign_role_to_member role member st
      = (Ok (true, "Role assigned"), granted role (handle_id member) st))
  \/ (exists e,
      role <> 0 /\ (role ∈ role_catalog (world st)) /\
      (role ∉ handle_roles (world st) member) /\
      add_roles_fault (world st) (handle_id member) role = Some e /\
      assign_role_to_member role member st
      = (Ok (false, exn_text e), refused role member e st)).
Proof.
  destruct (decide (role = 0)) as [->|Hcfg].
  { left. split; [done | apply assign_unconfigured]. }
  right. destruct (decide (role ∈ role_catalog (world st))) as [Hcat|Hcat].
  2: { left. auto using assign_role_missing. }
  right. destruct (decide (role ∈ handle_roles (world st) member)) as [Hhas|Hlacks].
  { left. auto using assign_already. }
  right.
  destruct (add_roles_fault (world st) (handle_id member) role) as [e|] eqn:Hfault.
  - right. exists e. auto 6 using assign_refused.
  - left. auto 6 using assign_granted.
Qed.

(** After a grant the guild has given the member the role. *)
Lemma roles_of_grant_in role member w mi :
  members w !! member = Some mi ->
  roles_of (grant_in role member w) member = m_roles mi ∪ {[role]}.
Proof.
  intros Hm. unfold grant_in.
  destruct (decide (role ∈ roles_of w member)) as [Hhas|Hlacks].
  - unfold roles_of in *. rewrite Hm in *. set_solver.
  - unfold roles_of. cbn [members set_guild]. by rewrite lookup_alter_eq, Hm.
Qed.

Lemma roles_of_granted role member st mi :
  members (world st) !! member = Some mi ->
  roles_of (world (granted role member st)) member = m_roles mi ∪ {[role]}.
Proof. apply roles_of_grant_in. Qed.

Lemma add_roles_fault_present w member role mi :
  members w !! member = Some mi ->
  add_roles_fault w member role = exn_of_http <$> grant_fault w member role.
Proof. intros Hm. unfold add_roles_fault. by rewrite Hm. Qed.

Lemma add_roles_fault_absent w member role :
  add_roles_fault w member role = None -> exists mi, members w !! member = Some mi.
Proof.
  unfold add_roles_fault. destruct (members w !! member) as [mi|]; [eauto|done].
Qed.

(** What the cache shows is among what the guild has given. *)
Lemma handle_roles_cached w id r :
  r ∈ handle_roles w (Cached id) -> r ∈ roles_of w id.
Proof. cbn [handle_roles]. set_solver. Qed.

(** ** What a coroutine may do to the state *)

Lemma grant_twice role mi : grant role (grant role mi) = grant role mi.
Proof.
  unfold grant. cbn [m_name m_roles m_cached]. f_equal.
  rewrite <- (assoc_L (∪)). by rewrite (idemp_L (∪)).
Qed.

Lemma set_guild_same w : set_guild (members w) (unseen w) w = w.
Proof. by destruct w. Qed.

#[global] Instance evolves_refl role P : Reflexive (evolves role P).
Proof.
  intros st. split; [|split; [|split]].
  - by rewrite set_guild_same.
  - by left.
  - done.
  - exists []. by rewrite app_nil_r.
Qed.

#[global] Instance evolves_trans role P : Transitive (evolves role P).
Proof.
  intros st1 st2 st3 (Hw12 & Hm12 & Hv12 & evs12 & Ht12 & HP12)
    (Hw23 & Hm23 & Hv23 & evs23 & Ht23 & HP23).
  split; [|split; [|split]].
  - rewrite Hw23 at 1. rewrite Hw12. reflexivity.
  - intros id. destruct (Hm23 id) as [H23|(mi2 & H2 & H3)];
      destruct (Hm12 id) as [H12|(mi1 & H1 & H2')].
    + left. congruence.
    + right. exists mi1. split; congruence.
    + right. exists mi2. split; congruence.
    + right. exists mi1. split; [done|].
      rewrite H3. f_equal. rewrite H2' in H2. injection H2 as <-.
      apply grant_twice.
  - intros id r Hr. by apply Hv23, Hv12.
  - exists (evs12 ++ evs23). split.
    + rewrite Ht23, Ht12. by rewrite <- app_assoc.
    + by apply Forall_app.
Qed.

Section Respects.

Context (R : state -> state -> Prop) `{!Reflexive R} `{!Transitive R}.

Lemma respects_ret {A} (a : A) : respects R (ret a).
Proof. intros st. reflexivity. Qed.

Lemma respects_raise {A} (e : exn) : respects R (@raise A e).
Proof. intros st. reflexivity. Qed.

Lemma respects_lift {A} (r : result A) : respects R (lift r).
Proof. intros st. reflexivity. Qed.

Lemma respects_get_world : respects R get_world.
Proof. intros st. reflexivity. Qed.

Lemma respects_refuse_if f : respects R (refuse_if f).
Proof. destruct f; [apply respects_raise | apply respects_ret]. Qed.

Lemma respects_bind {A B} (c : M A) (k : A -> M B) :
  respects R c -> (forall a, respects R (k a)) -> respects R (bind c k).
Proof.
  intros Hc Hk st. unfold bind. specialize (Hc st).
  destruct (c st) as [[a|e] st']; cbn [snd] in *; [|done].
  etransitivity; [exact Hc | apply Hk].
Qed.

Lemma respects_try_except {A} (c : M A) (h : exn -> M A) :
  respects R c -> (forall e, respects R (h e)) -> respects R (try_except c h).
Proof.
  intros Hc Hh st. unfold try_except. specialize (Hc st).
  destruct (c st) as [[a|e] st']; cbn [snd] in *; [done|].
  etransitivity; [exact Hc | apply Hh].
Qed.

End Respects.

Lemma respects_emit role (P : event -> Prop) e :
  P e -> respects (evolves role P) (emit e).
Proof.
  intros He st. unfold emit. cbn [snd].
  split; [|split; [|split]]; cbn [world trace].
  - by rewrite set_guild_same.
  - by left.
  - done.
  - exists [e]. split; [done|]. by constructor.
Qed.

Lemma unseen_of_grant_in_eq role member w :
  role ∉ roles_of w member ->
  unseen_of (grant_in role member w) member = unseen_of w member ∪ {[role]}.
Proof.
  intros Hlacks. unfold grant_in. rewrite decide_False by done.
  unfold unseen_of at 1. cbn [unseen set_guild]. by rewrite lookup_insert_eq.
Qed.

Lemma grant_in_other role member w other :
  other <> member ->
  members (grant_in role member w) !! other = members w !! other
  /\ unseen_of (grant_in role member w) other = unseen_of w other.
Proof.
  intros Hne. unfold grant_in.
  destruct (decide (role ∈ roles_of w member)); [done|].
  unfold unseen_of. cbn [members unseen set_guild].
  by rewrite lookup_alter_ne, lookup_insert_ne.
Qed.

Lemma evolves_grant_in role (P : event -> Prop) member st :
  evolves role P st (mkState (grant_in role member (world st)) (trace st)).
Proof.
  destruct (decide (role ∈ roles_of (world st) member)) as [Hhas|Hlacks].
  { unfold grant_in. rewrite decide_True by done. destruct st. reflexivity. }
  split; [|split; [|split]]; cbn [world trace].
  - unfold grant_in. by rewrite decide_False by done.
  - intros id. unfold grant_in. rewrite decide_False by done.
    cbn [members set_guild].
    destruct (decide (member = id)) as [->|Hne].
    + rewrite lookup_alter_eq. destruct (members (world st) !! id) as [mi|] eqn:Hm.
      * right. by exists mi.
      * by left.
    + left. by rewrite lookup_alter_ne.
  - intros id r. cbn [handle_roles].
    destruct (decide (id = member)) as [->|Hne].
    + rewrite unseen_of_grant_in_eq by done.
      intros Hr. apply elem_of_difference in Hr as [Hr Hseen].
      assert (r <> role) by (intros ->; done).
      apply elem_of_difference. split.
      * unfold roles_of in *. unfold grant_in. rewrite decide_False by done.
        cbn [members set_guild]. rewrite lookup_alter_eq.
        destruct (members (world st) !! member) as [mi|]; [|done].
        cbn [fmap option_fmap option_map grant m_roles]. set_solver.
      * set_solver.
    + destruct (grant_in_other role member (world st) id Hne) as [Hm Hu].
      unfold roles_of. by rewrite Hm, Hu.
  - exists []. by rewrite app_nil_r.
Qed.

Lemma evolves_member_update role (P : event -> Prop) member st :
  evolves role P st (member_update member st).
Proof.
  split; [|split; [|split]]; cbn [member_update world trace members set_guild].
  - reflexivity.
  - by left.
  - intros id r. cbn [handle_roles]. unfold roles_of, unseen_of.
    cbn [members unseen set_guild].
    destruct (decide (id = member)) as [->|Hne].
    + rewrite lookup_delete_eq. cbn [default]. set_solver.
    + by rewrite lookup_delete_ne.
  - exists []. by rewrite app_nil_r.
Qed.

Create HintDb respects.

Ltac respects_tac :=
  repeat first
    [ solve [auto with respects]
    | apply (respects_ret (evolves _ _))
    | apply (respects_raise (evolves _ _))
    | apply (respects_lift (evolves _ _))
    | apply (respects_get_world (evolves _ _))
    | apply (respects_refuse_if (evolves _ _))
    | apply respects_emit
    | apply (respects_bind (evolves _ _)); [|intros ?]
    | apply (respects_try_except (evolves _ _)); [|intros ?]
    | match goal with
      | |- respects _ (match (match ?x with _ => _ end) with _ => _ end) =>
          destruct x
      | |- respects _ (match ?x with _ => _ end) => destruct x
      end ].

Section BotRespects.

Context (role : Z) (P : event -> Prop).
Hypothesis P_add_roles : forall member, P (AddRoles member role).
Hypothesis P_print : forall line, P (Print line).

Lemma respects_add_roles member :
  respects (evolves role P) (add_roles member role).
Proof.
  intros st. unfold add_roles. unfold_monad. cbn [world trace].
  destruct (add_roles_fault (world st) (handle_id member) role) as [e|];
    cbn [snd].
  - apply (respects_emit role P (AddRoles (handle_id member) role)); auto.
  - transitivity (emit (AddRoles (handle_id member) role) st).2.
    + apply respects_emit; auto.
    + apply (evolves_grant_in role P (handle_id member)
               (emit (AddRoles (handle_id member) role) st).2).
Qed.
Local Hint Resolve respects_add_roles : respects.

Lemma respects_assign member :
  respects (evolves role P) (assign_role_to_member role member).
Proof.
  unfold assign_role_to_member, get_role, print, member_guild. respects_tac.
Qed.
Local Hint Resolve respects_assign : respects.

Lemma respects_fetch_member id : respects (evolves role P) (fetch_member id).
Proof. unfold fetch_member. respects_tac. Qed.
Local Hint Resolve respects_fetch_member : respects.

Lemma respects_sync_user user c :
  respects (evolves role P) (sync_user role user c).
Proof. unfold sync_user. respects_tac. Qed.
Local Hint Resolve respects_sync_user : respects.

Lemma respects_sync_loop users :
  forall c, respects (evolves role P) (sync_loop role users c).
Proof.
  induction users as [|user rest IH]; intros c; cbn [sync_loop]; respects_tac.
Qed.
Local Hint Resolve respects_sync_loop : respects.

Lemma respects_verify ctx :
  (forall e, P (Reply e)) -> respects (evolves role P) (verify role ctx).
Proof.
  intros P_reply. unfold verify, select_user, ctx_reply. respects_tac.
Qed.

Lemma respects_sync ctx :
  (forall s, P (ChannelSend s)) -> (forall e, P (EditMessage e)) ->
  respects (evolves role P) (sync role ctx).
Proof.
  intros P_send P_edit.
  unfold sync, has_permissions_administrator, select_passed, ctx_send,
    message_edit.
  respects_tac.
Qed.

Lemma respects_auto_assign_role guild discord_id :
  (forall m e, P (DirectMessage m e)) ->
  respects (evolves role P) (auto_assign_role guild role discord_id).
Proof.
  intros P_dm. unfold auto_assign_role, member_send, print. respects_tac.
Qed.
Local Hint Resolve respects_auto_assign_role : respects.

Lemma respects_on_handle guild p :
  (forall m e, P (DirectMessage m e)) ->
  respects (evolves role P) (on_handle guild role p).
Proof.
  intros P_dm. unfold on_handle, run_coroutine_threadsafe, print.
  respects_tac.
Qed.

End BotRespects.

(** ** The text of a refusal *)

(** [str(e)] of an HTTP error starts with the status, in decimal: it is
    neither of the two success strings. *)
Lemma http_str_not_success e : ~ success_reason (http_str e).
Proof.
  unfold success_reason, http_str, str_of_Z.
  destruct (Z.to_int (http_status e)) as [d|d]; destruct d;
    cbn [NilZero.string_of_int NilZero.string_of_uint NilEmpty.string_of_uint
         String.append];
    intros [H|H]; discriminate H.
Qed.

Lemma add_roles_fault_http w member role e :
  add_roles_fault w member role = Some e -> exists h, e = exn_of_http h.
Proof.
  unfold add_roles_fault. destruct (members w !! member).
  - destruct (grant_fault w member role) as [h|]; [|done].
    intros [= <-]. by exists h.
  - intros [= <-]. by eexists.
Qed.

Lemma refusal_not_success w member role e :
  add_roles_fault w member role = Some e -> ~ success_reason (exn_text e).
Proof.
  intros Hfault. destruct (add_roles_fault_http _ _ _ _ Hfault) as (h & ->).
  apply http_str_not_success.
Qed.

(** A grant the guild has accepted is seen nowhere yet but in the guild. *)
Lemma handle_roles_granted role (member : handle) st :
  role ∉ handle_roles (world st) member ->
  role ∉ handle_roles (world (granted role (handle_id member) st)) member.
Proof.
  destruct member as [id|id name roles]; cbn [handle_roles handle_id]; [|done].
  cbn [granted world]. intros Hlacks.
  destruct (decide (role ∈ roles_of (world st) id)) as [Hhas|Hnot].
  - unfold grant_in. by rewrite decide_True by done.
  - rewrite unseen_of_grant_in_eq by done. set_solver.
Qed.

(** A grant changes nothing of the services but the guild's entries. *)
Lemma grant_in_services role member w :
  grant_in role member w
  = set_guild (members (grant_in role member w)) (unseen (grant_in role member w)) w.
Proof.
  unfold grant_in. destruct (decide (role ∈ roles_of w member)); [|done].
  by rewrite set_guild_same.
Qed.

Lemma grant_in_catalog role member w :
  role_catalog (grant_in role member w) = role_catalog w.
Proof. by rewrite grant_in_services. Qed.

Lemma grant_in_fault role member w m r :
  add_roles_fault w m r = None -> add_roles_fault (grant_in role member w) m r = None.
Proof.
  unfold grant_in. destruct (decide (role ∈ roles_of w member)); [done|].
  unfold add_roles_fault. cbn [members grant_fault set_guild].
  destruct (decide (member = m)) as [->|Hne].
  - rewrite lookup_alter_eq. by destruct (members w !! m).
  - by rewrite lookup_alter_ne.
Qed.

Lemma grant_in_held role member w :
  role ∈ roles_of w member -> grant_in role member w = w.
Proof. intros Hhas. unfold grant_in. by rewrite decide_True by done. Qed.

Lemma roles_of_member_update member id st :
  roles_of (world (member_update member st)) id = roles_of (world st) id.
Proof. reflexivity. Qed.

Lemma handle_roles_member_update id st :
  handle_roles (world (member_update id st)) (Cached id) = roles_of (world st) id.
Proof.
  cbn [handle_roles]. unfold unseen_of, roles_of, member_update.
  cbn [world unseen members set_guild]. rewrite lookup_delete_eq. cbn [default].
  set_solver.
Qed.

(** ** Two calls in a row *)

(** C1, as stated, fails.  Ann lacks the role and the guild accepts the
    grant: the first call answers "Role assigned", and so does the
    second, made with the same member object and nothing in between,
    since [add_roles] leaves [member.roles] as it was.  For Bob, who
    holds the role, the first call already answers "Already has role";
    in the locked guild both calls fail; and so they do where the role
    is not in the catalog. *)
Lemma ensure_granted_twice_counterexample :
  ~ granted_then_already 7 (Cached 42) (mkState quiz_guild [])
  /\ (assign_role_to_member 7 (Cached 42)
        (assign_role_to_member 7 (Cached 42) (mkState quiz_guild [])).2).1
     = Ok (true, "Role assigned")
  /\ ~ granted_then_already 7 (Fetched 43 "bob" {[7]}) (mkState quiz_guild [])
  /\ ~ granted_then_already 7 (Cached 42) (mkState locked_guild [])
  /\ ~ granted_then_already 7 (Cached 42) (mkState roleless_guild []).
Proof.
  split; [|split; [by vm_compute|]].
  - intros (st1 & st2 & H1 & H2 & _).
    assert (Hst1 : st1 = (assign_role_to_member 7 (Cached 42)
                            (mkState quiz_guild [])).2) by by rewrite H1.
    subst st1. apply (f_equal fst) in H2. vm_compute in H2. discriminate.
  - repeat split; intros (st1 & st2 & H1 & _); apply (f_equal fst) in H1;
      vm_compute in H1; discriminate.
Qed.

(** C1, amended: when the role is configured and in the catalog, the
    member object does not show it and the guild accepts the grant, the
    first call returns [(True, "Role assigned")] after one [add_roles],
    and the guild has then given the member the role.  What the second
    call returns depends on what the member object shows by then.  Made
    with the same object and nothing in between, it calls [add_roles]
    again and returns [(True, "Role assigned")] again.  Made with the
    cache's object after the gateway's member update has arrived, or
    with an object fetched anew, it returns [(True, "Already has role")]
    and changes nothing.  In every case the role set the guild keeps for
    the member is the same after the second call as after the first:
    the old set plus the role. *)
Theorem ensure_granted_twice role (member : handle) mi st :
  role <> 0 ->
  role ∈ role_catalog (world st) ->
  members (world st) !! handle_id member = Some mi ->
  role ∉ handle_roles (world st) member ->
  grant_fault (world st) (handle_id member) role = None ->
  let id := handle_id member in
  let st1 := granted role id st in
  assign_role_to_member role member st = (Ok (true, "Role assigned"), st1)
  /\ roles_of (world st1) id = m_roles mi ∪ {[role]}
  /\ assign_role_to_member role member st1
     = (Ok (true, "Role assigned"),
        mkState (world st1) (trace st1 ++ [AddRoles id role]))
  /\ assign_role_to_member role (Cached id) (member_update id st1)
     = (Ok (true, "Already has role"), member_update id st1)
  /\ roles_of (world (member_update id st1)) id = m_roles mi ∪ {[role]}
  /\ (forall name,
        assign_role_to_member role (Fetched id name (roles_of (world st1) id)) st1
        = (Ok (true, "Already has role"), st1)).
Proof.
  intros Hcfg Hcat Hm Hlacks Hfault id st1.
  assert (Hroles : roles_of (world st1) id = m_roles mi ∪ {[role]})
    by by apply roles_of_granted.
  assert (Hheld : role ∈ roles_of (world st1) id).
  { rewrite Hroles. apply elem_of_union. right. by apply elem_of_singleton. }
  assert (Hfault' : forall w,
    members w !! id = Some mi -> grant_fault w id role = None ->
    add_roles_fault w id role = None).
  { intros w Hmw Hfw. by rewrite (add_roles_fault_present _ _ _ mi), Hfw. }
  split; [|split; [|split; [|split; [|split]]]].
  - apply assign_granted; [done..|]. by apply Hfault'.
  - exact Hroles.
  - rewrite assign_granted.
    + unfold granted at 1. fold id. by rewrite grant_in_held.
    + done.
    + cbn [st1 granted world]. by rewrite grant_in_catalog.
    + by apply handle_roles_granted.
    + fold id. cbn [st1 granted world]. by apply grant_in_fault, Hfault'.
  - apply assign_already; [done | |].
    + cbn [st1 granted member_update world role_catalog set_guild].
      by rewrite grant_in_catalog.
    + by rewrite handle_roles_member_update.
  - by rewrite roles_of_member_update.
  - intros name. apply assign_already; [done | | done].
    cbn [st1 granted world]. by rewrite grant_in_catalog.
Qed.

Lemma ensure_granted_twice_witness :
  (7 <> 0
   /\ (7 ∈ role_catalog quiz_guild)
   /\ members quiz_guild !! 42 = Some (Member "ann" ∅ true)
   /\ (7 ∉ handle_roles quiz_guild (Cached 42))
   /\ grant_fault quiz_guild 42 7 = None)
  /\ assign_role_to_member 7 (Cached 42) (mkState quiz_guild [])
     = (Ok (true, "Role assigned"), granted 7 42 (mkState quiz_guild []))
  /\ assign_role_to_member 7 (Cached 42)
       (member_update 42 (granted 7 42 (mkState quiz_guild [])))
     = (Ok (true, "Already has role"),
        member_update 42 (granted 7 42 (mkState quiz_guild []))).
Proof.
  assert (H0 : 7 <> 0) by lia.
  assert (H1 : 7 ∈ role_catalog quiz_guild) by by_decide.
  assert (H2 : members quiz_guild !! 42 = Some (Member "ann" ∅ true))
    by reflexivity.
  assert (H3 : 7 ∉ handle_roles quiz_guild (Cached 42)) by by_decide.
  assert (H4 : grant_fault quiz_guild 42 7 = None) by reflexivity.
  split; [done|].
  destruct (ensure_granted_twice 7 (Cached 42) (Member "ann" ∅ true)
              (mkState quiz_guild []) H0 H1 H2 H3 H4)
    as (Hfirst & _ & _ & Hupdated & _).
  split; [exact Hfirst | exact Hupdated].
Defined.

(** ** Classification *)

(** C3: with a role id configured, [assign_role_to_member] answers
    [(False, "Role not found in server")] and leaves the state alone when
    the id is not in the guild's catalog; else [(True, "Already has
    role")], state unchanged, when [member.roles] holds the role; else it
    calls [add_roles] and answers [(True, "Role assigned")] when that
    succeeds, the guild having given the member the role, and
    [(False, str(e))] when it raises [e], the guild being as before. *)
Theorem assign_role_classification role (member : handle) st :
  role <> 0 ->
  (role ∉ role_catalog (world st) ->
   assign_role_to_member role member st
   = (Ok (false, "Role not found in server"), st))
  /\ (role ∈ role_catalog (world st) ->
      role ∈ handle_roles (world st) member ->
      assign_role_to_member role member st = (Ok (true, "Already has role"), st))
  /\ (role ∈ role_catalog (world st) ->
      role ∉ handle_roles (world st) member ->
      add_roles_fault (world st) (handle_id member) role = None ->
      assign_role_to_member role member st
      = (Ok (true, "Role assigned"),
         mkState (grant_in role (handle_id member) (world st))
           (trace st ++ [AddRoles (handle_id member) role]))
      /\ role ∈ roles_of (grant_in role (handle_id member) (world st))
                  (handle_id member))
  /\ (forall e,
      role ∈ role_catalog (world st) ->
      role ∉ handle_roles (world st) member ->
      add_roles_fault (world st) (handle_id member) role = Some e ->
      exists line,
        assign_role_to_member role member st
        = (Ok (false, exn_text e),
           mkState (world st)
             (trace st ++ [AddRoles (handle_id member) role] ++ [Print line]))).
Proof.
  intros Hcfg. repeat apply conj.
  - by apply assign_role_missing.
  - by apply assign_already.
  - intros Hcat Hlacks Hfault. split; [by apply assign_granted|].
    destruct (add_roles_fault_absent _ _ _ Hfault) as (mi & Hm).
    rewrite (roles_of_grant_in _ _ _ mi Hm).
    apply elem_of_union. right. by apply elem_of_singleton.
  - intros e Hcat Hlacks Hfault. eexists.
    rewrite (assign_refused role member st e Hcfg Hcat Hlacks Hfault).
    unfold refused. by rewrite <- app_assoc.
Qed.

Lemma assign_role_classification_witness :
  7 <> 0
  /\ assign_role_to_member 7 (Fetched 43 "bob" {[7]}) (mkState quiz_guild [])
     = (Ok (true, "Already has role"), mkState quiz_guild []).
Proof.
  assert (H0 : 7 <> 0) by lia.
  split; [done|].
  apply (proj1 (proj2 (assign_role_classification 7 (Fetched 43 "bob" {[7]})
                         (mkState quiz_guild []) H0)));
    by_decide.
Defined.

(** ** No role configured *)

(** C5: with [ALLOWLIST_ROLE_ID] unset (0), every call answers
    [(False, "Role ID not configured")] and leaves the state as it was:
    no request is issued and no role set changes. *)
Theorem unconfigured_role_guard (member : author_obj) st :
  assign_role_to_member 0 member st
  = (Ok (false, "Role ID not configured"), st).
Proof. apply assign_unconfigured. Qed.

(** ** The result pair *)

(** C10: a call for a member returns a pair, and in every pair a call
    returns the flag is set exactly when the reason is "Already has role"
    or "Role assigned": the reason of a failure is "Role ID not
    configured", "Role not found in server" or the text of the HTTP error
    [add_roles] raised, which starts with the status code.  So [verify],
    which tests [reason == "Role assigned"] before the flag, shows
    "Assigned!" only for a success, and [sync] counts under "already had"
    and "newly assigned" only successes. *)
Theorem success_reason_pairing role st :
  (forall member : handle,
      exists success reason st',
        assign_role_to_member role member st = (Ok (success, reason), st')
        /\ (success = true <-> success_reason reason))
  /\ (forall (member : author_obj) r st',
        assign_role_to_member role member st = (Ok r, st') ->
        success_iff_reason r
        /\ (role_status r.1 r.2 = "✅ Assigned!" <->
            r.1 = true /\ r.2 = "Role assigned")
        /\ (role_status r.1 r.2 = "✅ Already assigned" <->
            r.1 = true /\ r.2 = "Already has role")).
Proof.
  assert (Hhandle : forall member : handle,
    exists success reason st',
      assign_role_to_member role member st = (Ok (success, reason), st')
      /\ (success = true <-> success_reason reason)
      /\ (success = false -> String.eqb reason "Role assigned" = false)).
  { intros member. unfold success_reason.
    destruct (assign_cases role member st)
      as [(_ & H) | [(_ & _ & H) | [(_ & _ & _ & H) | [(_ & _ & _ & _ & H)
         | (e & _ & _ & _ & Hfault & H)]]]];
      rewrite H; do 3 eexists; (split; [reflexivity|]).
    - split; [|done]. split; [done | intros [?|?]; done].
    - split; [|done]. split; [done | intros [?|?]; done].
    - split; [|done]. split; [by left | done].
    - split; [|done]. split; [by right | done].
    - apply refusal_not_success in Hfault. split.
      + split; [done | intros H'; by destruct Hfault].
      + intros _. apply String.eqb_neq. intros Heq. apply Hfault. by right. }
  split.
  - intros member. destruct (Hhandle member) as (s & r & st' & H & Hiff & _).
    by exists s, r, st'.
  - intros member [success reason] st' Hrun. cbn [fst snd].
    assert (Hiff : (success = true <-> success_reason reason)
                   /\ (success = false -> String.eqb reason "Role assigned" = false)).
    { destruct member as [h|id].
      - destruct (Hhandle h) as (s & r & st'' & H & Hiff & Hne).
        rewrite H in Hrun. by injection Hrun as <- <- <-.
      - destruct (decide (role = 0)) as [->|Hcfg].
        + rewrite assign_unconfigured in Hrun. injection Hrun as <- <- <-.
          split; [|done]. split; [done | intros [?|?]; done].
        + by rewrite assign_user in Hrun. }
    destruct Hiff as [Hiff Hne]. split; [exact Hiff|].
    unfold role_status. unfold success_reason in Hiff.
    destruct success.
    + destruct (proj1 Hiff eq_refl) as [->| ->]; vm_compute;
        repeat split; first [done | intros [_ H]; discriminate H].
    + rewrite Hne by done.
      split; (split; [|intros [[=] _]]).
      * destruct reason as [|a s]; cbn; intros [=].
      * destruct reason as [|a s]; cbn; intros [=].
Qed.

(** ** The listener path *)

(** The private message is attempted and whatever it raises is dropped. *)
Lemma send_swallowed (member : handle) e st :
  try_except (member_send member e) (fun _ => ret tt) st
  = (Ok tt, mkState (world st) (trace st ++ [DirectMessage (handle_id member) e])).
Proof.
  unfold member_send. unfold_monad. cbn [world trace].
  by destruct (dm_fault (world st) (handle_id member)).
Qed.

(** [get_member], then [fetch_member] when the cache has nothing. *)
Lemma lookup_member id st :
  match get_member (world st) id with
  | Some member => ret (Some member)
  | None =>
      try_except (member <- fetch_member id ;; ret (Some member))
        (fun _ => ret None)
  end st
  = (Ok (resolve (world st) id), st).
Proof.
  unfold get_member, resolve, fetch_member, fetch_member_fault, roles_of,
    member_name.
  destruct (members (world st) !! id) as [mi|] eqn:Hm.
  - destruct (m_cached mi); [done|]. unfold_monad. rewrite Hm.
    by destruct (fetch_fault (world st) id).
  - unfold_monad. rewrite Hm. by destruct (fetch_fault (world st) id).
Qed.

Lemma resolve_member discord_id id st :
  match get_member (world st) id with
  | Some member => ret (Some member)
  | None =>
      try_except
        (id' <- lift (Ok id) ;;
         member <- fetch_member id' ;; ret (Some member))
        (fun _ =>
           print ("[Bot] User " +:+ py_str discord_id +:+ " not in server") ;;
           ret None)
  end st
  = match resolve (world st) id with
    | Some member => (Ok (Some member), st)
    | None =>
        (Ok None,
         mkState (world st)
           (trace st ++ [Print ("[Bot] User " +:+ py_str discord_id
                                  +:+ " not in server")]))
    end.
Proof.
  unfold get_member, resolve, fetch_member, fetch_member_fault, roles_of,
    member_name.
  destruct (members (world st) !! id) as [mi|] eqn:Hm.
  - destruct (m_cached mi); [done|]. unfold_monad. rewrite Hm.
    by destruct (fetch_fault (world st) id).
  - unfold_monad. rewrite Hm. by destruct (fetch_fault (world st) id).
Qed.

Lemma auto_assign_role_eq guild role discord_id st :
  auto_assign_role guild role discord_id st
  = auto_assign_role_run guild role discord_id st.
Proof.
  unfold auto_assign_role, auto_assign_role_run.
  unfold bind at 1. unfold get_world at 1. cbv beta iota.
  unfold get_guild.
  destruct (decide (guild = guild_id (world st))) as [Hguild|Hguild]; [|done].
  destruct (py_int discord_id) as [id|e]; [|done].
  unfold bind at 1. unfold lift at 1. cbv beta iota.
  unfold bind at 1. rewrite resolve_member.
  destruct (resolve (world st) id) as [member|]; [|done].
  unfold bind at 1.
  destruct (assign_role_to_member role member st) as [[[[] reason]|e] st'];
    cbn [after_assign]; [|done..].
  unfold bind, print, emit. cbn [world trace].
  rewrite send_swallowed. cbn [world trace]. by rewrite <- app_assoc.
Qed.

(** What [resolve] produces: an object for the member asked for, whose
    roles are among those the guild has given. *)
Lemma resolve_id w id member : resolve w id = Some member -> handle_id member = id.
Proof.
  unfold resolve. destruct (members w !! id) as [mi|]; [|done].
  destruct (m_cached mi); [by intros [= <-]|].
  destruct (fetch_fault w id); [done|]. by intros [= <-].
Qed.

Lemma resolve_resolves w id :
  resolves w id = match resolve w id with Some _ => true | None => false end.
Proof.
  unfold resolves, resolve. destruct (members w !! id) as [mi|]; [|done].
  destruct (m_cached mi); [done|]. by destruct (fetch_fault w id).
Qed.

Lemma resolve_roles w id member r :
  resolve w id = Some member -> r ∈ handle_roles w member -> r ∈ roles_of w id.
Proof.
  unfold resolve, roles_of. destruct (members w !! id) as [mi|] eqn:Hm; [|done].
  destruct (m_cached mi).
  - intros [= <-] Hr. apply handle_roles_cached in Hr.
    unfold roles_of in Hr. by rewrite Hm in Hr.
  - destruct (fetch_fault w id); [done|]. by intros [= <-].
Qed.

Lemma resolve_present w id member :
  resolve w id = Some member -> exists mi, members w !! id = Some mi.
Proof.
  unfold resolve. destruct (members w !! id) as [mi|]; [eauto|done].
Qed.

Lemma reachable_resolves w id mi : reachable w id mi -> resolves w id = true.
Proof.
  intros [Hm Hreach]. unfold resolves. rewrite Hm.
  destruct (m_cached mi); [done|].
  destruct Hreach as [Hc|Hf]; [done|]. by rewrite Hf.
Qed.

Lemma reachable_resolve w id mi :
  reachable w id mi ->
  resolve w id
  = Some (if m_cached mi then Cached id else Fetched id (m_name mi) (m_roles mi)).
Proof.
  intros [Hm Hreach]. unfold resolve. rewrite Hm.
  destruct (m_cached mi); [done|].
  destruct Hreach as [Hc|Hf]; [done|]. by rewrite Hf.
Qed.

(** A relevant payload: the log line, then the coroutine. *)
Lemma on_handle_relevant guild role new_record st :
  new_record <> ∅ ->
  truthy (dict_get new_record "passed") = true ->
  truthy (dict_get new_record "discord_id") = true ->
  on_handle guild role (Payload (Some new_record)) st
  = run_coroutine_threadsafe
      (auto_assign_role guild role (dict_get new_record "discord_id"))
      (mkState (world st)
         (trace st ++ [realtime_line (dict_get new_record "discord_id")])).
Proof.
  intros Hne Hpassed Hid. unfold on_handle. cbn [record nonempty].
  rewrite decide_False by done. rewrite Hpassed, Hid. reflexivity.
Qed.

(** A call for a member returns. *)
Lemma assign_returns role (member : handle) st :
  exists success reason st',
    assign_role_to_member role member st = (Ok (success, reason), st').
Proof.
  destruct (assign_cases role member st)
    as [(_ & H) | [(_ & _ & H) | [(_ & _ & _ & H) | [(_ & _ & _ & _ & H)
       | (e & _ & _ & _ & _ & H)]]]];
    rewrite H; by do 3 eexists.
Qed.

(** One delivery of a relevant payload that names a member who can be
    resolved. *)
Lemma on_handle_resolved guild role new_record id member st :
  new_record <> ∅ ->
  truthy (dict_get new_record "passed") = true ->
  truthy (dict_get new_record "discord_id") = true ->
  py_int (dict_get new_record "discord_id") = Ok id ->
  guild = guild_id (world st) ->
  resolve (world st) id = Some member ->
  on_handle guild role (Payload (Some new_record)) st
  = after_assign (world st) member
      (assign_role_to_member role member
         (mkState (world st)
            (trace st ++ [realtime_line (dict_get new_record "discord_id")]))).
Proof.
  intros Hne Hpassed Hid Hint Hguild Hres.
  rewrite on_handle_relevant by done.
  unfold run_coroutine_threadsafe, try_except.
  rewrite auto_assign_role_eq. unfold auto_assign_role_run.
  cbn [world]. rewrite decide_True by done. rewrite Hint, Hres.
  destruct (assign_returns role member
              (mkState (world st)
                 (trace st ++ [realtime_line (dict_get new_record "discord_id")])))
    as (success & reason & st' & ->).
  by destruct success.
Qed.

(** C2, as stated, fails: delivering Ann's event twice sends her the
    congratulation twice, whether the cache has learnt of the grant in
    between or not; with nothing in between the second delivery also
    calls [add_roles] again; and in the locked guild neither delivery
    grants the role. *)
Lemma replay_counterexample :
  dm_count (trace (delivered_twice 1 7 ann_passed (mkState quiz_guild []))) = 2%nat
  /\ ~ (dm_count (trace (delivered_twice 1 7 ann_passed (mkState quiz_guild [])))
        <= 1)%nat
  /\ dm_count
       (trace (on_handle 1 7 ann_passed
                 (member_update 42
                    (on_handle 1 7 ann_passed (mkState quiz_guild [])).2)).2)
     = 2%nat
  /\ mutation_count (trace (delivered_twice 1 7 ann_passed (mkState quiz_guild [])))
     = 2%nat
  /\ trace (delivered_twice 1 7 ann_passed (mkState locked_guild []))
     = [realtime_line (PyStr "42"); AddRoles 42 7;
        Print ("[Bot] Error assigning role to ann: " +:+ exn_text forbidden);
        realtime_line (PyStr "42"); AddRoles 42 7;
        Print ("[Bot] Error assigning role to ann: " +:+ exn_text forbidden)].
Proof.
  assert (H : dm_count (trace (delivered_twice 1 7 ann_passed
                                 (mkState quiz_guild []))) = 2%nat)
    by by vm_compute.
  split; [done|]. split; [rewrite H; lia|].
  repeat split; by vm_compute.
Qed.

(** C2, amended: take an event whose record is passed and names a member
    who is in the guild, can be resolved and lacks the role, with the
    guild found, the role configured and in the catalog and the grant
    accepted, and let each delivery be handled to its end before the
    next.  The first delivery grants the role ("Role assigned") and
    attempts the private congratulation.  A second delivery attempts the
    congratulation again, whatever it finds.  It finds the role
    ("Already has role", no [add_roles]) when the cache has learnt of
    the grant through the gateway's member update, or when the member is
    not cached and is fetched anew; for a cached member whose update has
    not arrived it calls [add_roles] again and logs "Role assigned"
    again.  The guild's role set for the member is the old one plus the
    role after the first delivery and stays so. *)
Theorem replay_grants_once_notifies_each guild role new_record id mi st :
  new_record <> ∅ ->
  truthy (dict_get new_record "passed") = true ->
  truthy (dict_get new_record "discord_id") = true ->
  py_int (dict_get new_record "discord_id") = Ok id ->
  guild = guild_id (world st) ->
  reachable (world st) id mi ->
  role <> 0 ->
  role ∈ role_catalog (world st) ->
  role ∉ m_roles mi ->
  grant_fault (world st) id role = None ->
  let p := Payload (Some new_record) in
  let discord_id := dict_get new_record "discord_id" in
  let granting :=
    [realtime_line discord_id; AddRoles id role;
     assigned_line (m_name mi) "Role assigned";
     DirectMessage id congratulation] in
  let finding :=
    [realtime_line discord_id;
     assigned_line (m_name mi) "Already has role";
     DirectMessage id congratulation] in
  let st1 := mkState (grant_in role id (world st)) (trace st ++ granting) in
  on_handle guild role p st = (Ok tt, st1)
  /\ roles_of (world st1) id = m_roles mi ∪ {[role]}
  /\ on_handle guild role p (member_update id st1)
     = (Ok tt, mkState (world (member_update id st1)) (trace st1 ++ finding))
  /\ on_handle guild role p st1
     = (Ok tt,
        mkState (world st1)
          (trace st1 ++ if m_cached mi then granting else finding)).
Proof.
  intros Hne Hpassed Hid Hint Hguild Hreach Hcfg Hcat Hlacks Hfault
    p discord_id granting finding st1.
  assert (Hm : members (world st) !! id = Some mi) by apply Hreach.
  assert (Hnone : add_roles_fault (world st) id role = None).
  { by rewrite (add_roles_fault_present _ _ _ mi), Hfault. }
  assert (Hnot : role ∉ roles_of (world st) id).
  { unfold roles_of. by rewrite Hm. }
  assert (Hroles : roles_of (world st1) id = m_roles mi ∪ {[role]}).
  { cbn [st1 world]. by apply roles_of_grant_in. }
  assert (Hheld : role ∈ roles_of (world st1) id).
  { rewrite Hroles. apply elem_of_union. right. by apply elem_of_singleton. }
  assert (Hm1 : members (world st1) !! id = Some (grant role mi)).
  { cbn [st1 world]. unfold grant_in. rewrite decide_False by done.
    cbn [members set_guild]. by rewrite lookup_alter_eq, Hm. }
  assert (Hreach1 : reachable (world st1) id (grant role mi)).
  { split; [done|]. cbn [grant m_cached st1 world].
    rewrite grant_in_services. cbn [fetch_fault set_guild]. apply Hreach. }
  assert (Hcat1 : role ∈ role_catalog (world st1)).
  { cbn [st1 world]. by rewrite grant_in_catalog. }
  assert (Hguild1 : guild = guild_id (world st1)).
  { cbn [st1 world]. by rewrite grant_in_services. }
  set (member := if m_cached mi then Cached id
                 else Fetched id (m_name mi) (m_roles mi)).
  assert (Hid0 : handle_id member = id) by (unfold member; by destruct (m_cached mi)).
  assert (Hname : handle_name (world st) member = m_name mi).
  { unfold member. destruct (m_cached mi); cbn [handle_name]; [|done].
    unfold member_name. by rewrite Hm. }
  assert (Hview : role ∉ handle_roles (world st) member).
  { unfold member. destruct (m_cached mi); cbn [handle_roles]; [|done].
    set_solver. }
  (* the first delivery *)
  assert (Hstep1 : on_handle guild role p st = (Ok tt, st1)).
  { unfold p. rewrite (on_handle_resolved guild role new_record id member);
      [|done..|by apply reachable_resolve].
    rewrite assign_granted; [|done..|by rewrite Hid0].
    cbn [after_assign granted world trace]. rewrite Hid0, Hname.
    unfold st1, granting, assigned_line. fold discord_id.
    by rewrite <- !app_assoc. }
  split; [done|]. split; [done|]. split.
  - (* the cache has caught up *)
    set (s := member_update id st1).
    set (member1 := if m_cached mi then Cached id
                    else Fetched id (m_name mi) (m_roles mi ∪ {[role]})).
    assert (Hres : resolve (world s) id = Some member1).
    { rewrite (reachable_resolve _ _ (grant role mi)); [done|].
      split; [done|]. apply Hreach1. }
    assert (Hid1 : handle_id member1 = id)
      by (unfold member1; by destruct (m_cached mi)).
    assert (Hname1 : handle_name (world s) member1 = m_name mi).
    { unfold member1. destruct (m_cached mi); cbn [handle_name]; [|done].
      unfold member_name. cbn [s member_update world members set_guild].
      by rewrite Hm1. }
    assert (Hview1 : role ∈ handle_roles (world s) member1).
    { unfold member1. destruct (m_cached mi).
      - unfold s. by rewrite handle_roles_member_update.
      - cbn [handle_roles]. set_solver. }
    unfold p. rewrite (on_handle_resolved guild role new_record id member1);
      [|done..].
    rewrite assign_already; [|done | exact Hcat1 | done].
    cbn [after_assign world trace]. rewrite Hid1, Hname1.
    unfold finding, assigned_line. fold discord_id.
    by rewrite <- !app_assoc.
  - (* nothing in between *)
    unfold p. destruct (m_cached mi) eqn:Hcached.
    + assert (Hres : resolve (world st1) id = Some (Cached id)).
      { rewrite (reachable_resolve _ _ (grant role mi)) by done.
        cbn [grant m_cached]. by rewrite Hcached. }
      rewrite (on_handle_resolved guild role new_record id (Cached id));
        [|done..].
      rewrite assign_granted; [|done| done | |].
      * cbn [after_assign granted world trace handle_id handle_name].
        rewrite grant_in_held by done.
        unfold member_name. rewrite Hm1. cbn [grant m_name].
        unfold granting, assigned_line. fold discord_id.
        by rewrite <- !app_assoc.
      * cbn [handle_roles world st1]. rewrite unseen_of_grant_in_eq by done.
        set_solver.
      * cbn [world st1 handle_id]. by apply grant_in_fault.
    + assert (Hres : resolve (world st1) id
                     = Some (Fetched id (m_name mi) (m_roles mi ∪ {[role]}))).
      { rewrite (reachable_resolve _ _ (grant role mi)) by done.
        cbn [grant m_cached m_name m_roles]. by rewrite Hcached. }
      rewrite (on_handle_resolved guild role new_record id
                 (Fetched id (m_name mi) (m_roles mi ∪ {[role]})));
        [|done..].
      rewrite assign_already; [|done | done |].
      * cbn [after_assign world trace handle_id handle_name].
        unfold finding, assigned_line. fold discord_id.
        by rewrite <- !app_assoc.
      * cbn [handle_roles]. set_solver.
Qed.

Lemma replay_grants_once_notifies_each_witness :
  (<["passed" := PyBool true]> (<["discord_id" := PyStr "42"]> ∅) <> (∅ : row)
   /\ py_int (PyStr "42") = Ok 42
   /\ reachable quiz_guild 42 (Member "ann" ∅ true)
   /\ 7 <> 0
   /\ (7 ∈ role_catalog quiz_guild)
   /\ (7 ∉ (∅ : gset Z)))
  /\ dm_count (trace (delivered_twice 1 7 ann_passed (mkState quiz_guild []))) = 2%nat
  /\ mutation_count (trace (delivered_twice 1 7 ann_passed (mkState quiz_guild [])))
     = 2%nat
  /\ roles_of (world (on_handle 1 7 ann_passed (mkState quiz_guild [])).2) 42
     = ∅ ∪ {[7]}.
Proof.
  set (new_record := <["passed" := PyBool true]> (<["discord_id" := PyStr "42"]> ∅) : row).
  assert (H1 : new_record <> ∅) by by_decide.
  assert (H2 : truthy (dict_get new_record "passed") = true) by reflexivity.
  assert (H3 : truthy (dict_get new_record "discord_id") = true) by reflexivity.
  assert (H4 : py_int (dict_get new_record "discord_id") = Ok 42) by reflexivity.
  assert (H4' : py_int (PyStr "42") = Ok 42) by reflexivity.
  assert (H5 : 1 = guild_id (world (mkState quiz_guild []))) by reflexivity.
  assert (H6 : reachable quiz_guild 42 (Member "ann" ∅ true))
    by (split; [reflexivity | left; reflexivity]).
  assert (H7 : 7 <> 0) by lia.
  assert (H8 : 7 ∈ role_catalog quiz_guild) by by_decide.
  assert (H9 : 7 ∉ (∅ : gset Z)) by by_decide.
  assert (H10 : grant_fault quiz_guild 42 7 = None) by reflexivity.
  split; [done|].
  destruct (replay_grants_once_notifies_each 1 7 new_record 42
              (Member "ann" ∅ true) (mkState quiz_guild [])
              H1 H2 H3 H4 H5 H6 H7 H8 H9 H10) as (Hfirst & Hroles & _ & Hsecond).
  unfold delivered_twice, ann_passed. fold new_record.
  rewrite Hfirst. cbn [snd]. rewrite Hsecond. cbn [snd].
  split; [reflexivity | split; [reflexivity | exact Hroles]].
Defined.

(** ** The notification is best effort *)

Lemma assign_with_dm_fault role (member : handle) f st :
  assign_role_to_member role member (with_dm_fault f st)
  = ((assign_role_to_member role member st).1,
     with_dm_fault f (assign_role_to_member role member st).2).
Proof.
  destruct (assign_cases role member st)
    as [(-> & H) | [(Hcfg & Hcat & H) | [(Hcfg & Hcat & Hhas & H)
       | [(Hcfg & Hcat & Hlacks & Hfault & H)
       | (e & Hcfg & Hcat & Hlacks & Hfault & H)]]]];
    rewrite H; cbn [fst snd].
  - apply assign_unconfigured.
  - by apply assign_role_missing.
  - by apply assign_already.
  - rewrite assign_granted; [|done..].
    unfold granted, with_dm_fault, grant_in. cbn [world trace].
    change (roles_of (set_dm_fault f (world st))) with (roles_of (world st)).
    by destruct (decide (role ∈ roles_of (world st) (handle_id member))).
  - by rewrite (assign_refused _ _ _ e).
Qed.

Lemma auto_assign_role_with_dm_fault guild role discord_id f st :
  auto_assign_role guild role discord_id (with_dm_fault f st)
  = ((auto_assign_role guild role discord_id st).1,
     with_dm_fault f (auto_assign_role guild role discord_id st).2).
Proof.
  rewrite !auto_assign_role_eq. unfold auto_assign_role_run.
  change (world (with_dm_fault f st)) with (set_dm_fault f (world st)).
  change (resolve (set_dm_fault f (world st))) with (resolve (world st)).
  cbn [guild_id set_dm_fault].
  destruct (decide (guild = guild_id (world st))) as [Hguild|Hguild]; [|done].
  destruct (py_int discord_id) as [id|e]; [|done].
  destruct (resolve (world st) id) as [member|]; [|done].
  rewrite assign_with_dm_fault.
  by destruct (assign_role_to_member role member st) as [[[[] reason]|e] st'].
Qed.

(** C8: whatever [member.send] does, [auto_assign_role] ends the same
    way: with any other answers [f] to the private message it returns the
    same result and leaves the same state, with the same trace, the same
    role sets and the same cache; and when it does raise, the exception
    is the one of [int(discord_id)], never the one of the
    notification. *)
Theorem notification_failure_swallowed guild role discord_id f st :
  let base := auto_assign_role guild role discord_id st in
  let other := auto_assign_role guild role discord_id (with_dm_fault f st) in
  other.1 = base.1
  /\ other.2 = with_dm_fault f base.2
  /\ trace other.2 = trace base.2
  /\ members (world other.2) = members (world base.2)
  /\ unseen (world other.2) = unseen (world base.2)
  /\ (forall e, base.1 = Raise e -> py_int discord_id = Raise e).
Proof.
  intros base other. unfold other.
  rewrite auto_assign_role_with_dm_fault. fold base. cbn [fst snd].
  repeat split.
  intros e. unfold base. rewrite auto_assign_role_eq.
  unfold auto_assign_role_run.
  destruct (decide (guild = guild_id (world st))) as [Hguild|Hguild]; [|done].
  destruct (py_int discord_id) as [id|e']; [|cbn [fst]; congruence].
  destruct (resolve (world st) id) as [member|]; [|done].
  destruct (assign_returns role member st) as (success & reason & st' & ->).
  by destruct success.
Qed.

(** ** The commands never send the private message *)

Lemma evolves_trace role P st st' :
  evolves role P st st' -> exists evs, trace st' = trace st ++ evs /\ Forall P evs.
Proof. by intros (_ & _ & _ & H). Qed.

(** C9: whatever [verify] and [sync] do, also when the grant inside
    [verify] is a new one, none of the requests they issue is a private
    message. *)
Theorem commands_never_notify role ctx st :
  (exists evs, trace (verify role ctx st).2 = trace st ++ evs /\ Forall no_dm evs)
  /\ (exists evs, trace (sync role ctx st).2 = trace st ++ evs /\ Forall no_dm evs).
Proof.
  split; apply (evolves_trace role).
  - by apply respects_verify.
  - by apply respects_sync.
Qed.

(** ** Nothing takes a role away *)

Lemma perform_evolves guild role op st :
  evolves role (fun _ => True) st (perform guild role op st).
Proof.
  destruct op; cbn [perform].
  - by apply respects_on_handle.
  - by apply respects_auto_assign_role.
  - by apply respects_assign.
  - by apply respects_verify.
  - by apply respects_sync.
  - apply evolves_member_update.
Qed.

Lemma perform_all_evolves guild role ops :
  forall st, evolves role (fun _ => True) st (perform_all guild role ops st).
Proof.
  induction ops as [|op ops' IH]; intros st; cbn [perform_all].
  - reflexivity.
  - etransitivity; [apply perform_evolves | apply IH].
Qed.

Lemma evolves_roles role P st st' member :
  evolves role P st st' ->
  roles_of (world st') member = roles_of (world st) member
  \/ roles_of (world st') member = roles_of (world st) member ∪ {[role]}.
Proof.
  intros (_ & Hm & _). unfold roles_of.
  destruct (Hm member) as [->|(mi & -> & ->)]; [by left | by right].
Qed.

(** C6: after any sequence of deliveries, role assignments, [verify] and
    [sync] commands, with member updates from the gateway in between,
    each member's role set in the guild is the one before or the one
    before plus the configured role; no role a member held is gone, and
    none the cache showed for the member is gone from the cache. *)
Theorem no_demotion guild role ops st member :
  let st' := perform_all guild role ops st in
  (roles_of (world st') member = roles_of (world st) member
   \/ roles_of (world st') member = roles_of (world st) member ∪ {[role]})
  /\ (forall r, r ∈ roles_of (world st) member -> r ∈ roles_of (world st') member)
  /\ (forall r,
        r ∈ handle_roles (world st) (Cached member) ->
        r ∈ handle_roles (world st') (Cached member)).
Proof.
  intros st'.
  assert (Hev := perform_all_evolves guild role ops st). fold st' in Hev.
  assert (H := evolves_roles role _ st st' member Hev).
  split; [exact H|]. split.
  - intros r Hr. destruct H as [->| ->]; [done|].
    apply elem_of_union. by left.
  - destruct Hev as (_ & _ & Hview & _). apply Hview.
Qed.

(** ** The sweep *)

Lemma sync_user_eq role user c st :
  sync_user role user c st = sync_user_run role user c st.
Proof.
  unfold sync_user, sync_user_run, identity_of.
  unfold bind at 1. unfold lift at 1.
  destruct (dict_item user "discord_id") as [v|e]; [|done].
  unfold bind at 1. unfold lift at 1.
  destruct (py_int v) as [d_id|e]; [|done].
  unfold bind at 1. unfold get_world at 1. cbv beta iota.
  unfold bind at 1. rewrite lookup_member.
  destruct (resolve (world st) d_id) as [member|]; [|done].
  unfold bind at 1.
  destruct (assign_role_to_member role member st) as [[[success reason]|e] st'];
    [|done].
  unfold tally. destruct success; [|done].
  by destruct (String.eqb reason "Already has role").
Qed.

Lemma total_tally c success reason : total (tally c success reason) = S (total c).
Proof.
  unfold tally, total. destruct success; [|cbn; lia].
  destruct (String.eqb reason "Already has role"); cbn; lia.
Qed.

Lemma total_absent c : total (absent c) = S (total c).
Proof. unfold absent, total. cbn. lia. Qed.

(** A turn that ends counts its user once. *)
Lemma sync_user_counts role user c st c' st' :
  sync_user role user c st = (Ok c', st') -> total c' = S (total c).
Proof.
  rewrite sync_user_eq. unfold sync_user_run.
  destruct (identity_of user) as [d_id|e]; [|done].
  destruct (resolve (world st) d_id) as [member|].
  - destruct (assign_role_to_member role member st) as [[[success reason]|e] st''];
      [|done].
    intros [= <- <-]. apply total_tally.
  - intros [= <- <-]. apply total_absent.
Qed.

(** A turn ends when the identity can be read. *)
Lemma sync_user_completes role user c st :
  has_identity user = true ->
  exists c' st', sync_user role user c st = (Ok c', st').
Proof.
  rewrite sync_user_eq. unfold sync_user_run, has_identity.
  destruct (identity_of user) as [d_id|e]; [intros _|done].
  destruct (resolve (world st) d_id) as [member|]; [|by do 2 eexists].
  destruct (assign_returns role member st) as (success & reason & st' & ->).
  by do 2 eexists.
Qed.

Lemma sync_loop_counts role users :
  forall c st c' st',
    sync_loop role users c st = (Ok c', st') ->
    total c' = (total c + length users)%nat.
Proof.
  induction users as [|user rest IH]; intros c st c' st'; cbn [sync_loop length].
  - intros [= <- <-]. lia.
  - unfold bind.
    destruct (sync_user role user c st) as [[c1|e] st1] eqn:Hstep; [|done].
    intros Hrest. apply IH in Hrest. apply sync_user_counts in Hstep. lia.
Qed.

Lemma sync_loop_completes role users :
  forallb has_identity users = true ->
  forall c st, exists c' st', sync_loop role users c st = (Ok c', st').
Proof.
  induction users as [|user rest IH]; cbn [forallb sync_loop]; intros Hall c st.
  - by do 2 eexists.
  - apply andb_prop in Hall as [Huser Hrest]. unfold bind.
    destruct (sync_user_completes role user c st Huser) as (c1 & st1 & ->).
    by apply IH.
Qed.

Lemma sync_eq role ctx st : sync role ctx st = sync_run role ctx st.
Proof.
  unfold sync, sync_run, has_permissions_administrator.
  destruct (administrator ctx); [|done].
  unfold ctx_send, select_passed, message_edit. unfold_monad. cbn [world trace].
  destruct (channel_fault (world st)); [reflexivity|].
  unfold_monad. cbn [world trace].
  destruct (passed_users (world st)) as [users|e]; [|reflexivity].
  unfold syncing.
  destruct (sync_loop role users (Counters 0 0 0 0) _) as [[c|e] st2];
    [|reflexivity].
  cbn [world trace]. by destruct (channel_fault (world st2)).
Qed.

Lemma evolves_channel role P st st' :
  evolves role P st st' -> channel_fault (world st') = channel_fault (world st).
Proof. intros (-> & _). reflexivity. Qed.

(** The sweep ends with its report once the listing is there, the channel
    takes messages and every listed identity can be read. *)
Lemma sync_completes role ctx st users :
  administrator ctx = true ->
  channel_fault (world st) = None ->
  passed_users (world st) = Ok users ->
  forallb has_identity users = true ->
  exists c evs,
    sync role ctx st
    = (Ok tt,
       mkState (world (sync role ctx st).2)
         (trace st ++ [syncing] ++ evs ++ [EditMessage (sync_report c)]))
    /\ total c = length users.
Proof.
  intros Hadmin Hchan Husers Hall. rewrite sync_eq. unfold sync_run.
  rewrite Hadmin, Hchan, Husers.
  set (st1 := mkState (world st) (trace st ++ [syncing])).
  destruct (sync_loop_completes role users Hall (Counters 0 0 0 0) st1)
    as (c & st2 & Hloop).
  assert (Hev : evolves role (fun _ => True) st1 st2).
  { change st2 with (Ok c, st2).2. rewrite <- Hloop.
    by apply respects_sync_loop. }
  rewrite Hloop. rewrite (evolves_channel _ _ _ _ Hev). cbn [st1 world].
  rewrite Hchan. destruct (evolves_trace _ _ _ _ Hev) as (evs & Htrace & _).
  exists c, evs. split.
  - cbn [snd world]. rewrite Htrace. cbn [st1 trace].
    by rewrite <- !app_assoc.
  - by rewrite (sync_loop_counts _ _ _ _ _ _ Hloop).
Qed.

(** A sweep that ends has counted every listed user once. *)
Lemma sync_returns_counts role ctx st st' users :
  passed_users (world st) = Ok users ->
  sync role ctx st = (Ok tt, st') ->
  exists c evs,
    trace st' = trace st ++ [syncing] ++ evs ++ [EditMessage (sync_report c)]
    /\ total c = length users.
Proof.
  intros Husers. rewrite sync_eq. unfold sync_run.
  destruct (administrator ctx); [|done].
  destruct (channel_fault (world st)); [done|]. rewrite Husers.
  set (st1 := mkState (world st) (trace st ++ [syncing])).
  destruct (sync_loop role users (Counters 0 0 0 0) st1) as [[c|e] st2] eqn:Hloop;
    [|done].
  assert (Hev : evolves role (fun _ => True) st1 st2).
  { change st2 with (Ok c, st2).2. rewrite <- Hloop.
    by apply respects_sync_loop. }
  destruct (evolves_trace _ _ _ _ Hev) as (evs & Htrace & _).
  destruct (channel_fault (world st2)); [done|].
  intros [= <-]. exists c, evs. split.
  - cbn [trace]. rewrite Htrace. cbn [st1 trace]. by rewrite <- !app_assoc.
  - by rewrite (sync_loop_counts _ _ _ _ _ _ Hloop).
Qed.

(** C4: given the listing of [N] passed users, a sweep that returns has
    edited its status message into a report whose four counters sum to
    [N]; and the sweep does return when the author is an administrator,
    the channel takes messages and every listed identity can be read. *)
Theorem sync_counters_sum role ctx st users :
  passed_users (world st) = Ok users ->
  (forall st',
      sync role ctx st = (Ok tt, st') ->
      exists c evs,
        trace st' = trace st ++ [syncing] ++ evs ++ [EditMessage (sync_report c)]
        /\ (assigned c + already_had c + failed c + not_in_server c)%nat
           = length users)
  /\ (administrator ctx = true ->
      channel_fault (world st) = None ->
      forallb has_identity users = true ->
      exists st', sync role ctx st = (Ok tt, st')).
Proof.
  intros Husers. split.
  - intros st' Hrun. by apply (sync_returns_counts role ctx st st' users).
  - intros Hadmin Hchan Hall.
    destruct (sync_completes role ctx st users Hadmin Hchan Husers Hall)
      as (c & evs & Hrun & _).
    eexists. exact Hrun.
Qed.

Lemma sync_counters_sum_witness :
  passed_users (world (mkState quiz_guild []))
  = Ok [<["discord_id" := PyStr "42"]> ∅; <["discord_id" := PyStr "99"]> ∅;
        <["discord_id" := PyStr "43"]> ∅]
  /\ exists st',
       sync 7 (GuildCtx (Cached 42) true) (mkState quiz_guild []) = (Ok tt, st').
Proof.
  assert (H : passed_users (world (mkState quiz_guild []))
              = Ok [<["discord_id" := PyStr "42"]> ∅; <["discord_id" := PyStr "99"]> ∅;
                    <["discord_id" := PyStr "43"]> ∅]) by reflexivity.
  split; [exact H|].
  apply (proj2 (sync_counters_sum 7 (GuildCtx (Cached 42) true)
                  (mkState quiz_guild []) _ H));
    reflexivity.
Defined.

(** ** The commands and their replies *)

Lemma verify_eq role ctx st : verify role ctx st = verify_run role ctx st.
Proof.
  unfold verify, verify_run, select_user.
  unfold bind at 1. unfold bind at 1. unfold get_world at 1. cbv beta iota.
  unfold lift at 1.
  destruct (users_by_discord_id (world st) (str_of_Z (author_id ctx))) as [data|e];
    [|done].
  unfold bind at 1.
  destruct (nonempty (head data)) as [user_data|]; [|done].
  destruct (decide (dict_get user_data "status" = PyStr "passed"))
    as [Hpassed|Hpassed]; [|done].
  unfold bind at 1.
  by destruct (assign_role_to_member role (author ctx) st)
    as [[[success reason]|e] st'].
Qed.

Lemma ctx_reply_accepted e st :
  channel_fault (world st) = None ->
  ctx_reply e st = (Ok tt, mkState (world st) (trace st ++ [Reply e])).
Proof.
  intros Hchan. unfold ctx_reply. unfold_monad. cbn [world trace].
  by rewrite Hchan.
Qed.

(** [resolve] is [get_member], then [fetch_member]. *)
Lemma resolve_lookup w id :
  resolve w id
  = match get_member w id with
    | Some member => Some member
    | None =>
        match fetch_member_fault w id with
        | Some _ => None
        | None => Some (Fetched id (member_name w id) (roles_of w id))
        end
    end.
Proof.
  unfold resolve, get_member, fetch_member_fault, member_name, roles_of.
  destruct (members w !! id) as [mi|].
  - destruct (m_cached mi); [done|]. by destruct (fetch_fault w id).
  - by destruct (fetch_fault w id).
Qed.

(** A call that answers False has a reason other than "Role assigned". *)
Lemma failure_reason role (member : handle) st reason st' :
  assign_role_to_member role member st = (Ok (false, reason), st') ->
  String.eqb reason "Role assigned" = false.
Proof.
  destruct (assign_cases role member st)
    as [(_ & H) | [(_ & _ & H) | [(_ & _ & _ & H) | [(_ & _ & _ & _ & H)
       | (e & _ & _ & _ & Hfault & H)]]]];
    rewrite H; intros [= <- <-]; try reflexivity.
  apply String.eqb_neq. intros Heq.
  apply (refusal_not_success _ _ _ _ Hfault). by right.
Qed.

(** C7, as stated, fails: with the backend down [verify] raises and
    issues no reply; with a listed identity that is not a number [sync]
    raises after its first message and Ann's grant, and never reports;
    [sync] run by somebody who is not an administrator raises at once;
    where the bot may not write in the channel the reply of [verify] is
    refused; and [verify] sent in a direct message by a user who has
    passed raises on [member.guild], without a reply. *)
Lemma commands_reply_counterexample :
  verify 7 (GuildCtx (Cached 42) false) (mkState offline_backend_guild [])
  = (Raise backend_down, mkState offline_backend_guild [])
  /\ (sync 7 (GuildCtx (Cached 42) true) (mkState unreadable_listing_guild [])).1
     = Raise (Exn "TypeError"
                "int() argument must be a string, a bytes-like object or a real number, not 'NoneType'")
  /\ trace (sync 7 (GuildCtx (Cached 42) true) (mkState unreadable_listing_guild [])).2
     = [syncing; AddRoles 42 7]
  /\ sync 7 (GuildCtx (Cached 42) false) (mkState quiz_guild [])
     = (Raise missing_permissions, mkState quiz_guild [])
  /\ (verify 7 (GuildCtx (Cached 42) false) (mkState muted_guild [])).1
     = Raise forbidden
  /\ verify 7 (DMCtx 42) (mkState quiz_guild [])
     = (Raise no_guild_attribute, mkState quiz_guild []).
Proof. repeat split; by vm_compute. Qed.

(** C7, amended.  Where the channel takes messages and the command is
    sent in the guild, [verify] replies whenever the backend answers its
    query, whatever the outcome of the grant; a call that answers False,
    a refused grant among them, is shown in the reply as a warning with
    its reason.  [sync], run by an administrator, ends with its report
    of four counters summing to the number of listed users whenever the
    backend answers the listing and every listed identity can be read,
    whatever the outcomes of the member lookups and of the grants: in
    each turn of its loop a user who is not in the cache and whose fetch
    fails is counted as not in server, and a user whose grant is refused
    is counted as failed. *)
Theorem commands_reply_when_backend_answers role member is_administrator st :
  let ctx := GuildCtx member is_administrator in
  channel_fault (world st) = None ->
  (forall data,
      users_by_discord_id (world st) (str_of_Z (author_id ctx)) = Ok data ->
      exists e evs st',
        verify role ctx st = (Ok tt, st')
        /\ trace st' = trace st ++ evs ++ [Reply e])
  /\ (forall user rest reason st1,
      users_by_discord_id (world st) (str_of_Z (author_id ctx)) = Ok (user :: rest) ->
      dict_get user "status" = PyStr "passed" ->
      assign_role_to_member role (author ctx) st = (Ok (false, reason), st1) ->
      verify role ctx st
      = (Ok tt,
         mkState (world st1)
           (trace st1 ++ [Reply (passed_embed ("⚠️ " +:+ reason))])))
  /\ (forall user rest e,
      users_by_discord_id (world st) (str_of_Z (author_id ctx)) = Ok (user :: rest) ->
      dict_get user "status" = PyStr "passed" ->
      role <> 0 ->
      role ∈ role_catalog (world st) ->
      role ∉ handle_roles (world st) member ->
      add_roles_fault (world st) (handle_id member) role = Some e ->
      verify role ctx st
      = (Ok tt,
         mkState (world st)
           (trace st
            ++ [AddRoles (handle_id member) role;
                Print ("[Bot] Error assigning role to "
                         +:+ handle_name (world st) member +:+ ": " +:+ exn_text e);
                Reply (passed_embed ("⚠️ " +:+ exn_text e))])))
  /\ (forall users,
      administrator ctx = true ->
      passed_users (world st) = Ok users ->
      forallb has_identity users = true ->
      exists c evs st',
        sync role ctx st = (Ok tt, st')
        /\ trace st' = trace st ++ [syncing] ++ evs ++ [EditMessage (sync_report c)]
        /\ (assigned c + already_had c + failed c + not_in_server c)%nat
           = length users)
  /\ (forall user d_id c s,
      identity_of user = Ok d_id ->
      (get_member (world s) d_id = None ->
       fetch_member_fault (world s) d_id <> None ->
       sync_user role user c s
       = (Ok (Counters (assigned c) (already_had c) (failed c)
                (not_in_server c + 1)), s))
      /\ (forall target e,
          resolve (world s) d_id = Some target ->
          role <> 0 ->
          role ∈ role_catalog (world s) ->
          role ∉ handle_roles (world s) target ->
          add_roles_fault (world s) d_id role = Some e ->
          sync_user role user c s
          = (Ok (Counters (assigned c) (already_had c) (failed c + 1)
                   (not_in_server c)),
             refused role target e s))).
Proof.
  intros ctx Hchan.
  assert (Hfalse : forall user rest reason st1,
    users_by_discord_id (world st) (str_of_Z (author_id ctx)) = Ok (user :: rest) ->
    dict_get user "status" = PyStr "passed" ->
    assign_role_to_member role (author ctx) st = (Ok (false, reason), st1) ->
    verify role ctx st
    = (Ok tt,
       mkState (world st1)
         (trace st1 ++ [Reply (passed_embed ("⚠️ " +:+ reason))]))).
  { intros user rest reason st1 Hdata Hstatus Hassign.
    rewrite verify_eq. unfold verify_run. rewrite Hdata. cbn [head nonempty].
    assert (Huser : user <> ∅).
    { intros ->. unfold dict_get in Hstatus.
      by rewrite lookup_empty in Hstatus. }
    rewrite decide_False by done. rewrite decide_True by done.
    assert (Hev : evolves role (fun _ => True) st st1).
    { change st1 with (Ok (false, reason), st1).2. rewrite <- Hassign.
      by apply respects_assign. }
    rewrite Hassign, ctx_reply_accepted
      by by rewrite (evolves_channel _ _ _ _ Hev).
    unfold role_status.
    by rewrite (failure_reason role member st reason st1 Hassign). }
  split; [|split; [exact Hfalse|split; [|split]]].
  - intros data Hdata. rewrite verify_eq. unfold verify_run. rewrite Hdata.
    destruct (nonempty (head data)) as [user_data|].
    + destruct (decide (dict_get user_data "status" = PyStr "passed")).
      * destruct (assign_returns role member st)
          as (success & reason & st1 & Hassign).
        assert (Hev : evolves role (fun _ => True) st st1).
        { change st1 with (Ok (success, reason), st1).2. rewrite <- Hassign.
          by apply respects_assign. }
        cbn [ctx author]. rewrite Hassign, ctx_reply_accepted
          by by rewrite (evolves_channel _ _ _ _ Hev).
        destruct (evolves_trace _ _ _ _ Hev) as (evs & Htrace & _).
        do 3 eexists. split; [reflexivity|]. cbn [trace].
        by rewrite Htrace, <- app_assoc.
      * rewrite ctx_reply_accepted by done.
        exists pending_embed, []. by eexists.
    + rewrite ctx_reply_accepted by done.
      exists unregistered_embed, []. by eexists.
  - intros user rest e Hdata Hstatus Hcfg Hcat Hlacks Hfault.
    rewrite (Hfalse user rest (exn_text e) (refused role member e st));
      [|done..|by apply assign_refused].
    unfold refused. cbn [world trace]. by rewrite <- !app_assoc.
  - intros users Hadmin Husers Hall.
    destruct (sync_completes role ctx st users Hadmin Hchan Husers Hall)
      as (c & evs & Hrun & Htotal).
    exists c, evs. eexists. split; [exact Hrun|]. by split.
  - intros user d_id c s Hid. split.
    + intros Hcache Hfetch. rewrite sync_user_eq. unfold sync_user_run.
      rewrite Hid, resolve_lookup, Hcache.
      by destruct (fetch_member_fault (world s) d_id).
    + intros target e Hres Hcfg Hcat Hlacks Hfault.
      rewrite sync_user_eq. unfold sync_user_run. rewrite Hid, Hres.
      rewrite (assign_refused role target s e); [done..|].
      by rewrite (resolve_id _ _ _ Hres).
Qed.

Lemma commands_reply_when_backend_answers_witness :
  channel_fault (world (mkState locked_guild [])) = None
  /\ verify 7 (GuildCtx (Cached 42) false) (mkState locked_guild [])
     = (Ok tt,
        mkState locked_guild
          [AddRoles 42 7;
           Print ("[Bot] Error assigning role to ann: " +:+ exn_text forbidden);
           Reply (passed_embed ("⚠️ " +:+ exn_text forbidden))])
  /\ exists c evs st',
       sync 7 (GuildCtx (Cached 42) true) (mkState locked_guild []) = (Ok tt, st')
       /\ trace st' = [] ++ [syncing] ++ evs ++ [EditMessage (sync_report c)]
       /\ (assigned c + already_had c + failed c + not_in_server c)%nat = 3%nat.
Proof.
  assert (H : channel_fault (world (mkState locked_guild [])) = None)
    by reflexivity.
  destruct (commands_reply_when_backend_answers 7 (Cached 42) false
              (mkState locked_guild []) H) as (_ & _ & Hrefused & _).
  destruct (commands_reply_when_backend_answers 7 (Cached 42) true
              (mkState locked_guild []) H) as (_ & _ & _ & Hsync & _).
  split; [exact H | split].
  - apply (Hrefused (<["status" := PyStr "passed"]> ∅) [] forbidden);
      [reflexivity | reflexivity | lia | by_decide | by_decide | reflexivity].
  - apply (Hsync _ eq_refl eq_refl eq_refl).
Defined.

(** * Further properties *)

(** ** One call touches one member *)

(** The outcomes of a call for a member, as states. *)
Lemma assign_state_cases role (member : handle) st :
  (assign_role_to_member role member st).2 = st
  \/ (assign_role_to_member role member st
      = (Ok (true, "Role assigned"), granted role (handle_id member) st)
      /\ role <> 0 /\ (role ∈ role_catalog (world st))
      /\ (role ∉ handle_roles (world st) member)
      /\ add_roles_fault (world st) (handle_id member) role = None)
  \/ (exists e,
      assign_role_to_member role member st
      = (Ok (false, exn_text e), refused role member e st)
      /\ add_roles_fault (world st) (handle_id member) role = Some e).
Proof.
  destruct (assign_cases role member st)
    as [(_ & H) | [(_ & _ & H) | [(_ & _ & _ & H) | [(Hcfg & Hcat & Hl & Hf & H)
       | (e & _ & _ & _ & Hf & H)]]]]; rewrite H.
  - by left.
  - by left.
  - by left.
  - right. by left.
  - right. right. by exists e.
Qed.

Lemma grant_in_unseen_other role member w other :
  other <> member ->
  unseen (grant_in role member w) !! other = unseen w !! other.
Proof.
  intros Hne. unfold grant_in.
  destruct (decide (role ∈ roles_of w member)); [done|].
  cbn [unseen set_guild]. by rewrite lookup_insert_ne.
Qed.

Lemma assign_frame role (member : handle) st other :
  other <> handle_id member ->
  members (world (assign_role_to_member role member st).2) !! other
  = members (world st) !! other
  /\ unseen (world (assign_role_to_member role member st).2) !! other
     = unseen (world st) !! other.
Proof.
  intros Hne.
  destruct (assign_state_cases role member st)
    as [-> | [(-> & _) | (e & -> & _)]]; [done| |done].
  cbn [snd granted world]. split.
  - by apply grant_in_other.
  - by apply grant_in_unseen_other.
Qed.

Lemma assign_failure_keeps_world role (member : handle) st reason st' :
  assign_role_to_member role member st = (Ok (false, reason), st') ->
  world st' = world st.
Proof.
  destruct (assign_state_cases role member st)
    as [H | [(-> & _) | (e & -> & _)]].
  - intros Heq. rewrite Heq in H. cbn [snd] in H. by subst.
  - done.
  - by intros [= _ <-].
Qed.

(** X12: a call of [assign_role_to_member] leaves every other member's
    entry as it was, in the guild and in the cache, whatever its result;
    and a call that answers [False] leaves the whole guild as it was. *)
Theorem assign_touches_one_member role (member : handle) st :
  (forall other,
      other <> handle_id member ->
      members (world (assign_role_to_member role member st).2) !! other
      = members (world st) !! other
      /\ unseen (world (assign_role_to_member role member st).2) !! other
         = unseen (world st) !! other)
  /\ (forall reason st',
      assign_role_to_member role member st = (Ok (false, reason), st') ->
      world st' = world st).
Proof.
  split.
  - intros other. apply assign_frame.
  - apply assign_failure_keeps_world.
Qed.

(** A call that answers [True] leaves the role configured and in the
    catalog; when the answer is "Role assigned" the guild has given the
    member the role. *)
Lemma assign_success_holds role (member : handle) st reason st' :
  assign_role_to_member role member st = (Ok (true, reason), st') ->
  role <> 0 /\ (role ∈ role_catalog (world st'))
  /\ (reason = "Already has role" /\ st' = st
      /\ (role ∈ handle_roles (world st) member)
      \/ reason = "Role assigned" /\ st' = granted role (handle_id member) st
         /\ (role ∉ handle_roles (world st) member)
         /\ add_roles_fault (world st) (handle_id member) role = None
         /\ (role ∈ roles_of (world st') (handle_id member))).
Proof.
  destruct (assign_cases role member st)
    as [(_ & H) | [(_ & _ & H) | [(Hcfg & Hcat & Hhas & H)
       | [(Hcfg & Hcat & Hl & Hf & H) | (e & _ & _ & _ & _ & H)]]]];
    rewrite H; intros [= <- <-] || intros [=].
  - split; [done | split; [done|]]. by left.
  - destruct (add_roles_fault_absent _ _ _ Hf) as (mi & Hm).
    split; [done | split].
    + cbn [granted world]. by rewrite grant_in_catalog.
    + right. repeat split; try done.
      rewrite (roles_of_granted role _ st mi Hm).
      apply elem_of_union. right. by apply elem_of_singleton.
Qed.

Lemma assign_repeatedly_settled role (member : handle) st n :
  role <> 0 -> role ∈ role_catalog (world st) ->
  role ∈ handle_roles (world st) member ->
  assign_repeatedly role member n st
  = (repeat (Ok (true, "Already has role")) n, st).
Proof.
  intros Hcfg Hcat Hhas. induction n as [|n IH]; cbn [assign_repeatedly repeat].
  - done.
  - rewrite (assign_already role member st Hcfg Hcat Hhas). by rewrite IH.
Qed.

(** With a member object that goes on not showing a role the guild has
    given, every call asks for the grant again. *)
Lemma assign_repeatedly_stale role (member : handle) n :
  forall st,
    role <> 0 -> role ∈ role_catalog (world st) ->
    role ∉ handle_roles (world st) member ->
    role ∈ roles_of (world st) (handle_id member) ->
    add_roles_fault (world st) (handle_id member) role = None ->
    assign_repeatedly role member n st
    = (repeat (Ok (true, "Role assigned")) n,
       mkState (world st)
         (trace st ++ repeat (AddRoles (handle_id member) role) n)).
Proof.
  induction n as [|n IH]; intros st Hcfg Hcat Hlacks Hheld Hfault;
    cbn [assign_repeatedly repeat].
  - rewrite app_nil_r. by destruct st.
  - rewrite assign_granted by done.
    assert (Hst : granted role (handle_id member) st
                  = mkState (world st)
                      (trace st ++ [AddRoles (handle_id member) role])).
    { unfold granted. by rewrite grant_in_held. }
    rewrite Hst, IH by done. cbn [world trace].
    by rewrite <- app_assoc.
Qed.

(** X14: after a call of [assign_role_to_member] that answered [True]
    for a member object that shows the role only if the guild has given
    it, what further calls answer depends on what the object shows.
    Once the gateway's member update has reached the cache, any number
    of calls with the cache's object answer [(True, "Already has role")]
    and change nothing, not even the trace; so do calls with the same
    object when the first answer was "Already has role".  When the first
    answer was "Role assigned", calls with the same object and nothing
    in between each call [add_roles] and answer "Role assigned" again,
    the guild staying as it is. *)
Theorem assign_success_is_stable role (member : handle) st reason st1 n :
  (role ∈ handle_roles (world st) member ->
   role ∈ roles_of (world st) (handle_id member)) ->
  assign_role_to_member role member st = (Ok (true, reason), st1) ->
  let id := handle_id member in
  assign_repeatedly role (Cached id) n (member_update id st1)
  = (repeat (Ok (true, "Already has role")) n, member_update id st1)
  /\ (reason = "Already has role" ->
      assign_repeatedly role member n st1
      = (repeat (Ok (true, "Already has role")) n, st1))
  /\ (reason = "Role assigned" ->
      assign_repeatedly role member n st1
      = (repeat (Ok (true, "Role assigned")) n,
         mkState (world st1) (trace st1 ++ repeat (AddRoles id role) n))).
Proof.
  intros Hfaithful Hfirst id.
  destruct (assign_success_holds role member st reason st1 Hfirst)
    as (Hcfg & Hcat & [(-> & -> & Hhas) | (-> & -> & Hlacks & Hfault & Hheld)]).
  - split; [|split; [|done]].
    + apply assign_repeatedly_settled; [done | done |].
      rewrite handle_roles_member_update. by apply Hfaithful.
    + intros _. by apply assign_repeatedly_settled.
  - split; [|split; [done|]].
    + apply assign_repeatedly_settled; [done | done |].
      by rewrite handle_roles_member_update.
    + intros _. apply assign_repeatedly_stale; [done | done | | done |].
      * by apply handle_roles_granted.
      * cbn [granted world]. by apply grant_in_fault.
Qed.

Lemma assign_success_is_stable_witness :
  assign_role_to_member 7 (Cached 42) (mkState quiz_guild [])
  = (Ok (true, "Role assigned"), granted 7 42 (mkState quiz_guild []))
  /\ assign_repeatedly 7 (Cached 42) 3
       (member_update 42 (granted 7 42 (mkState quiz_guild [])))
     = (repeat (Ok (true, "Already has role")) 3,
        member_update 42 (granted 7 42 (mkState quiz_guild [])))
  /\ assign_repeatedly 7 (Cached 42) 3 (granted 7 42 (mkState quiz_guild []))
     = (repeat (Ok (true, "Role assigned")) 3,
        mkState (world (granted 7 42 (mkState quiz_guild [])))
          [AddRoles 42 7; AddRoles 42 7; AddRoles 42 7; AddRoles 42 7]).
Proof.
  assert (H : assign_role_to_member 7 (Cached 42) (mkState quiz_guild [])
              = (Ok (true, "Role assigned"), granted 7 42 (mkState quiz_guild [])))
    by by vm_compute.
  assert (Hfaithful :
    7 ∈ handle_roles (world (mkState quiz_guild [])) (Cached 42) ->
    7 ∈ roles_of (world (mkState quiz_guild [])) (handle_id (Cached 42)))
    by by_decide.
  destruct (assign_success_is_stable 7 (Cached 42) (mkState quiz_guild [])
              "Role assigned" (granted 7 42 (mkState quiz_guild [])) 3
              Hfaithful H) as (Hupdated & _ & Hstale).
  split; [exact H|]. split; [exact Hupdated | exact (Hstale eq_refl)].
Defined.

(** ** The feed callback *)

Lemma on_handle_eq guild role p st :
  on_handle guild role p st
  = if relevant p then
      (Ok tt,
       (auto_assign_role guild role (discord_id_of p)
          (mkState (world st) (trace st ++ [realtime_line (discord_id_of p)]))).2)
    else (Ok tt, st).
Proof.
  unfold on_handle, relevant, discord_id_of.
  destruct p as [[new_record|]]; cbn [record nonempty]; [|done].
  destruct (decide (new_record = ∅)) as [Hempty|Hempty]; [done|].
  destruct (truthy (dict_get new_record "passed")
            && truthy (dict_get new_record "discord_id"))%bool; [|done].
  unfold bind, print, emit, run_coroutine_threadsafe, try_except, realtime_line.
  by destruct (auto_assign_role guild role (dict_get new_record "discord_id") _)
    as [[[]|e] st'].
Qed.

Lemma after_assign_world w member r :
  world (after_assign w member r).2 = world r.2.
Proof. by destruct r as [[[[] reason]|e] st']. Qed.

Lemma auto_assign_role_frame guild role discord_id st other :
  py_int discord_id <> Ok other ->
  members (world (auto_assign_role guild role discord_id st).2) !! other
  = members (world st) !! other.
Proof.
  intros Hother. rewrite auto_assign_role_eq. unfold auto_assign_role_run.
  destruct (decide (guild = guild_id (world st))) as [Hguild|Hguild]; [|done].
  destruct (py_int discord_id) as [id|e]; [|done].
  destruct (resolve (world st) id) as [member|] eqn:Hres; [|done].
  rewrite after_assign_world. apply assign_frame.
  rewrite (resolve_id _ _ _ Hres). congruence.
Qed.

(** X1: whatever the payload and the state of the services, [on_handle]
    returns normally, and the only member whose entry it can change is the
    one [int(discord_id)] names. *)
Theorem on_handle_is_safe guild role p st :
  (on_handle guild role p st).1 = Ok tt
  /\ (forall other,
      py_int (discord_id_of p) <> Ok other ->
      members (world (on_handle guild role p st).2) !! other
      = members (world st) !! other).
Proof.
  rewrite on_handle_eq. destruct (relevant p); [|done].
  split; [done|]. intros other Hother. cbn [snd].
  by rewrite auto_assign_role_frame.
Qed.

Lemma app_cons_neq {A} (l : list A) x l' : l <> l ++ x :: l'.
Proof.
  intros H. apply (f_equal length) in H. rewrite length_app in H.
  cbn [length] in H. lia.
Qed.

(** X2: [on_handle] leaves the state untouched, log included, exactly
    when the payload is not relevant: no record, an empty record, or a
    record whose [passed] or [discord_id] is missing or counts as false. *)
Theorem on_handle_drops_irrelevant guild role p st :
  (on_handle guild role p st).2 = st <-> relevant p = false.
Proof.
  rewrite on_handle_eq. destruct (relevant p); [|done].
  split; [|done]. cbn [snd]. intros Hsame. exfalso.
  set (s0 := mkState (world st) (trace st ++ [realtime_line (discord_id_of p)])) in *.
  assert (Hev : evolves role (fun _ => True) s0
                  (auto_assign_role guild role (discord_id_of p) s0).2)
    by by apply respects_auto_assign_role.
  destruct (evolves_trace _ _ _ _ Hev) as (evs & Htrace & _).
  rewrite Hsame in Htrace. cbn [s0 trace] in Htrace.
  rewrite <- app_assoc in Htrace. by apply app_cons_neq in Htrace.
Qed.

(** X4: [auto_assign_role] raises exactly when the guild is found and
    [int(discord_id)] raises, and then with that exception; no failure of
    the member lookup, the grant or the notification makes it raise. *)
Theorem auto_assign_role_raises_iff guild role discord_id st e :
  (auto_assign_role guild role discord_id st).1 = Raise e
  <-> guild = guild_id (world st) /\ py_int discord_id = Raise e.
Proof.
  rewrite auto_assign_role_eq. unfold auto_assign_role_run.
  destruct (decide (guild = guild_id (world st))) as [Hguild|Hguild].
  2: { split; [done | by intros [? _]]. }
  destruct (py_int discord_id) as [id|e'].
  2: { cbn [fst]. split; [by intros [= ->] | by intros [_ [= ->]]]. }
  split; [|by intros [_ ?]].
  destruct (resolve (world st) id) as [member|]; [|done].
  destruct (assign_returns role member st) as (success & reason & st' & ->).
  by destruct success.
Qed.

(** X3: a relevant event whose [discord_id] cannot be read by [int()]
    is dropped without a trace of the failure: with the guild found,
    [on_handle] returns normally and all it leaves is its own "passed"
    line. *)
Theorem on_handle_unreadable_identity guild role p st e :
  relevant p = true ->
  guild = guild_id (world st) ->
  py_int (discord_id_of p) = Raise e ->
  on_handle guild role p st
  = (Ok tt, mkState (world st) (trace st ++ [realtime_line (discord_id_of p)])).
Proof.
  intros Hrel Hguild Hint. rewrite on_handle_eq, Hrel.
  rewrite auto_assign_role_eq. unfold auto_assign_role_run. cbn [world].
  rewrite decide_True by done. by rewrite Hint.
Qed.

Lemma on_handle_unreadable_identity_witness :
  on_handle 1 7
    (Payload (Some (<["passed" := PyInt 1]> (<["discord_id" := PyStr "ann#42"]> ∅))))
    (mkState quiz_guild [])
  = (Ok tt, mkState quiz_guild [realtime_line (PyStr "ann#42")]).
Proof.
  exact (on_handle_unreadable_identity 1 7
           (Payload (Some (<["passed" := PyInt 1]>
                             (<["discord_id" := PyStr "ann#42"]> ∅))))
           (mkState quiz_guild [])
           (Exn "ValueError" "invalid literal for int() with base 10: 'ann#42'")
           eq_refl eq_refl eq_refl).
Defined.

(** ** Members that cannot be resolved *)

Lemma auto_assign_role_unresolved guild role discord_id id st :
  guild = guild_id (world st) ->
  py_int discord_id = Ok id ->
  resolve (world st) id = None ->
  auto_assign_role guild role discord_id st
  = (Ok tt,
     mkState (world st)
       (trace st ++ [Print ("[Bot] User " +:+ py_str discord_id
                              +:+ " not in server")])).
Proof.
  intros Hguild Hint Hres. rewrite auto_assign_role_eq.
  unfold auto_assign_role_run. rewrite decide_True by done.
  by rewrite Hint, Hres.
Qed.

Lemma sync_user_unresolved role user c id st :
  identity_of user = Ok id ->
  resolve (world st) id = None ->
  sync_user role user c st = (Ok (absent c), st).
Proof.
  intros Hid Hres. rewrite sync_user_eq. unfold sync_user_run.
  by rewrite Hid, Hres.
Qed.

(** X5: for an identity that is not in the guild, the listener path
    logs "not in server" and returns normally, and a turn of the sweep
    counts one more "not in server"; neither calls [add_roles], sends a
    message or changes the guild: of the listener the state keeps the
    log line only, of the turn nothing. *)
Theorem absent_member_is_classified guild role id st :
  members (world st) !! id = None ->
  (forall discord_id,
      guild = guild_id (world st) ->
      py_int discord_id = Ok id ->
      auto_assign_role guild role discord_id st
      = (Ok tt,
         mkState (world st)
           (trace st ++ [Print ("[Bot] User " +:+ py_str discord_id
                                  +:+ " not in server")])))
  /\ (forall user c,
      identity_of user = Ok id ->
      sync_user role user c st
      = (Ok (Counters (assigned c) (already_had c) (failed c)
               (not_in_server c + 1)), st)).
Proof.
  intros Habsent.
  assert (Hres : resolve (world st) id = None).
  { unfold resolve. by rewrite Habsent. }
  split.
  - intros discord_id Hguild Hint.
    by apply (auto_assign_role_unresolved _ _ _ id).
  - intros user c Hid. by apply (sync_user_unresolved _ _ _ id).
Qed.

Lemma absent_member_is_classified_witness :
  members (world (mkState quiz_guild [])) !! 99 = None
  /\ sync_user 7 (<["discord_id" := PyStr "99"]> ∅) (Counters 0 0 0 0)
       (mkState quiz_guild [])
     = (Ok (Counters 0 0 0 1), mkState quiz_guild []).
Proof.
  assert (H : members (world (mkState quiz_guild [])) !! 99 = None)
    by reflexivity.
  split; [exact H|].
  exact (proj2 (absent_member_is_classified 1 7 99 (mkState quiz_guild []) H)
           (<["discord_id" := PyStr "99"]> ∅) (Counters 0 0 0 0) eq_refl).
Defined.

(** X15: a member who is in the guild but not in the cache, and whose
    fetch fails for whatever reason, is treated as absent: the listener
    path logs "not in server", a turn of the sweep counts "not in
    server", and no grant is attempted. *)
Theorem failed_fetch_counts_as_absent guild role id mi e st :
  members (world st) !! id = Some mi ->
  m_cached mi = false ->
  fetch_fault (world st) id = Some e ->
  (forall discord_id,
      guild = guild_id (world st) ->
      py_int discord_id = Ok id ->
      auto_assign_role guild role discord_id st
      = (Ok tt,
         mkState (world st)
           (trace st ++ [Print ("[Bot] User " +:+ py_str discord_id
                                  +:+ " not in server")])))
  /\ (forall user c,
      identity_of user = Ok id ->
      sync_user role user c st
      = (Ok (Counters (assigned c) (already_had c) (failed c)
               (not_in_server c + 1)), st)).
Proof.
  intros Hm Hcached Hfetch.
  assert (Hres : resolve (world st) id = None).
  { unfold resolve. by rewrite Hm, Hcached, Hfetch. }
  split.
  - intros discord_id Hguild Hint.
    by apply (auto_assign_role_unresolved _ _ _ id).
  - intros user c Hid. by apply (sync_user_unresolved _ _ _ id).
Qed.

Lemma failed_fetch_counts_as_absent_witness :
  (members (world (mkState flaky_guild [])) !! 43 = Some (Member "bob" ∅ false)
   /\ fetch_fault flaky_guild 43 = Some (Exn "TimeoutError" ""))
  /\ auto_assign_role 1 7 (PyStr "43") (mkState flaky_guild [])
     = (Ok tt, mkState flaky_guild [Print "[Bot] User 43 not in server"]).
Proof.
  assert (H1 : members (world (mkState flaky_guild [])) !! 43
               = Some (Member "bob" ∅ false)) by reflexivity.
  assert (H2 : fetch_fault (world (mkState flaky_guild [])) 43
               = Some (Exn "TimeoutError" "")) by reflexivity.
  split; [done|].
  exact (proj1 (failed_fetch_counts_as_absent 1 7 43 (Member "bob" ∅ false)
                  (Exn "TimeoutError" "") (mkState flaky_guild [])
                  H1 eq_refl H2)
           (PyStr "43") eq_refl eq_refl).
Defined.

(** ** What one event can cause *)

(** The requests of one call of [assign_role_to_member]. *)
Lemma assign_events role (member : handle) st :
  exists evs,
    trace (assign_role_to_member role member st).2 = trace st ++ evs
    /\ (mutation_count evs <= 1)%nat
    /\ (forall m, m <> handle_id member -> grants_to m evs = 0%nat)
    /\ (grants_to (handle_id member) evs <= 1)%nat
    /\ dm_count evs = 0%nat.
Proof.
  destruct (assign_state_cases role member st)
    as [-> | [(-> & _) | (e & -> & _)]].
  - exists []. rewrite app_nil_r. cbn. repeat split; done || lia.
  - exists [AddRoles (handle_id member) role]. cbn.
    rewrite decide_True by done. split; [done|]. split; [lia|].
    split; [|split; [lia|done]].
    intros m Hm. by rewrite decide_False by done.
  - eexists [AddRoles (handle_id member) role; Print _]. cbn.
    rewrite decide_True by done. split; [by rewrite <- app_assoc|].
    split; [lia|]. split; [|split; [lia|done]].
    intros m Hm. by rewrite decide_False by done.
Qed.

Lemma auto_assign_role_events guild role discord_id st :
  exists evs,
    trace (auto_assign_role guild role discord_id st).2 = trace st ++ evs
    /\ (mutation_count evs <= 1)%nat
    /\ (dm_count evs <= 1)%nat
    /\ (forall m e,
        DirectMessage m e ∈ evs ->
        py_int discord_id = Ok m
        /\ e = congratulation
        /\ (role ∈ roles_of (world (auto_assign_role guild role discord_id st).2) m)).
Proof.
  rewrite auto_assign_role_eq. unfold auto_assign_role_run.
  destruct (decide (guild = guild_id (world st))) as [Hguild|Hguild].
  2: { eexists [_]. cbn. split; [done|]. split; [lia|]. split; [lia|].
       intros m e Hin. apply elem_of_cons in Hin as [[=]|Hin].
       by apply elem_of_nil in Hin. }
  destruct (py_int discord_id) as [id|e'].
  2: { exists []. cbn. rewrite app_nil_r. split; [done|]. split; [lia|].
       split; [lia|]. intros m e Hin. by apply elem_of_nil in Hin. }
  destruct (resolve (world st) id) as [member|] eqn:Hres.
  2: { eexists [_]. cbn. split; [done|]. split; [lia|]. split; [lia|].
       intros m e Hin. apply elem_of_cons in Hin as [[=]|Hin].
       by apply elem_of_nil in Hin. }
  assert (Hid := resolve_id _ _ _ Hres).
  destruct (assign_cases role member st)
    as [(_ & H) | [(_ & _ & H) | [(Hcfg & Hcat & Hhas & H)
       | [(Hcfg & Hcat & _ & Hf & H) | (e' & _ & _ & _ & _ & H)]]]];
    rewrite H; cbn [after_assign snd world trace].
  - exists []. cbn. rewrite app_nil_r. split; [done|]. split; [lia|].
    split; [lia|]. intros m e Hin. by apply elem_of_nil in Hin.
  - exists []. cbn. rewrite app_nil_r. split; [done|]. split; [lia|].
    split; [lia|]. intros m e Hin. by apply elem_of_nil in Hin.
  - eexists [_; _]. split; [reflexivity|]. cbn. split; [lia|]. split; [lia|].
    intros m e Hin. apply elem_of_cons in Hin as [[=]|Hin].
    apply elem_of_cons in Hin as [[= -> ->]|Hin];
      [|by apply elem_of_nil in Hin].
    rewrite Hid. split; [done | split; [done|]].
    by apply (resolve_roles _ _ member).
  - destruct (add_roles_fault_absent _ _ _ Hf) as (mi & Hm).
    eexists [AddRoles (handle_id member) role; _; _]. unfold granted.
    cbn [world trace].
    split; [by rewrite <- app_assoc|]. cbn. split; [lia|]. split; [lia|].
    intros m e Hin. apply elem_of_cons in Hin as [[=]|Hin].
    apply elem_of_cons in Hin as [[=]|Hin].
    apply elem_of_cons in Hin as [[= -> ->]|Hin];
      [|by apply elem_of_nil in Hin].
    split; [by rewrite Hid | split; [done|]].
    rewrite (roles_of_grant_in role _ _ mi Hm).
    apply elem_of_union. right. by apply elem_of_singleton.
  - eexists [AddRoles (handle_id member) role; _]. unfold refused.
    cbn [world trace].
    split; [by rewrite <- app_assoc|]. cbn. split; [lia|]. split; [lia|].
    intros m e Hin. apply elem_of_cons in Hin as [[=]|Hin].
    apply elem_of_cons in Hin as [[=]|Hin].
    by apply elem_of_nil in Hin.
Qed.

(** X6: every private message [on_handle] sends is the congratulation,
    goes to the member the event names, and goes out only when that
    member holds the role once the event is handled: nobody is
    congratulated on a grant that failed. *)
Theorem congratulation_only_to_holders guild role p st :
  exists evs,
    trace (on_handle guild role p st).2 = trace st ++ evs
    /\ (forall m e,
        DirectMessage m e ∈ evs ->
        py_int (discord_id_of p) = Ok m
        /\ e = congratulation
        /\ (role ∈ roles_of (world (on_handle guild role p st).2) m)).
Proof.
  rewrite on_handle_eq. destruct (relevant p).
  2: { exists []. cbn. rewrite app_nil_r. split; [done|].
       intros m e Hin. by apply elem_of_nil in Hin. }
  set (s0 := mkState (world st) (trace st ++ [realtime_line (discord_id_of p)])).
  destruct (auto_assign_role_events guild role (discord_id_of p) s0)
    as (evs & Htrace & _ & _ & Hdm).
  exists (realtime_line (discord_id_of p) :: evs). cbn [snd]. split.
  - rewrite Htrace. cbn [s0 trace]. by rewrite <- app_assoc.
  - intros m e Hin. apply elem_of_cons in Hin as [[=]|Hin]. by apply Hdm.
Qed.

(** X16: handling one event calls [add_roles] at most once and sends at
    most one private message. *)
Theorem one_event_one_grant guild role p st :
  exists evs,
    trace (on_handle guild role p st).2 = trace st ++ evs
    /\ (mutation_count evs <= 1)%nat
    /\ (dm_count evs <= 1)%nat.
Proof.
  rewrite on_handle_eq. destruct (relevant p).
  2: { exists []. cbn. rewrite app_nil_r. split; [done | lia]. }
  set (s0 := mkState (world st) (trace st ++ [realtime_line (discord_id_of p)])).
  destruct (auto_assign_role_events guild role (discord_id_of p) s0)
    as (evs & Htrace & Hmut & Hdm & _).
  exists (realtime_line (discord_id_of p) :: evs). cbn [snd]. split.
  - rewrite Htrace. cbn [s0 trace]. by rewrite <- app_assoc.
  - by cbn.
Qed.

(** ** The self-check command *)

Lemma ctx_reply_state e st :
  (ctx_reply e st).2 = mkState (world st) (trace st ++ [Reply e]).
Proof.
  unfold ctx_reply. unfold_monad. cbn [world trace].
  by destruct (channel_fault (world st)).
Qed.

(** X7: for a member whose backend record is missing, empty, or has a
    status other than "passed", [verify] calls no role assignment: all it
    sends is its reply, and the guild is left as it was.  The reply is
    the "not registered" one exactly when there is no record or an empty
    one, and the "not passed yet" one otherwise. *)
Theorem verify_without_pass_grants_nothing role ctx st data :
  users_by_discord_id (world st) (str_of_Z (author_id ctx)) = Ok data ->
  (forall user_data,
      head data = Some user_data -> dict_get user_data "status" <> PyStr "passed") ->
  exists e,
    (verify role ctx st).2 = mkState (world st) (trace st ++ [Reply e])
    /\ (e = unregistered_embed \/ e = pending_embed)
    /\ (e = unregistered_embed <-> nonempty (head data) = None).
Proof.
  intros Hdata Hstatus. rewrite verify_eq. unfold verify_run. rewrite Hdata.
  assert (Hdiff : pending_embed <> unregistered_embed).
  { intros H. apply (f_equal description) in H. discriminate H. }
  destruct (head data) as [user_data|] eqn:Hhead; cbn [nonempty].
  - destruct (decide (user_data = ∅)) as [Hempty|Hempty].
    + exists unregistered_embed. rewrite ctx_reply_state.
      split; [done | split; [by left | done]].
    + rewrite decide_False by by apply Hstatus.
      exists pending_embed. rewrite ctx_reply_state.
      split; [done | split; [by right | done]].
  - exists unregistered_embed. rewrite ctx_reply_state.
    split; [done | split; [by left | done]].
Qed.

Lemma verify_without_pass_grants_nothing_witness :
  users_by_discord_id (world (mkState quiz_guild [])) (str_of_Z 43) = Ok []
  /\ (verify 7 (GuildCtx (Fetched 43 "bob" {[7]}) false) (mkState quiz_guild [])).2
     = mkState quiz_guild [Reply unregistered_embed].
Proof.
  assert (H : users_by_discord_id (world (mkState quiz_guild [])) (str_of_Z 43)
              = Ok []) by reflexivity.
  split; [exact H|].
  destruct (verify_without_pass_grants_nothing 7
              (GuildCtx (Fetched 43 "bob" {[7]}) false)
              (mkState quiz_guild []) [] H) as (e & Hrun & _ & Hwhich).
  { intros user_data [=]. }
  rewrite Hrun. by rewrite (proj2 Hwhich eq_refl).
Defined.

(** [verify] for an author whose record says "passed". *)
Lemma verify_passed role ctx user rest s :
  users_by_discord_id (world s) (str_of_Z (author_id ctx)) = Ok (user :: rest) ->
  dict_get user "status" = PyStr "passed" ->
  verify role ctx s
  = match assign_role_to_member role (author ctx) s with
    | (Ok (success, reason), s') =>
        ctx_reply (passed_embed (role_status success reason)) s'
    | (Raise e, s') => (Raise e, s')
    end.
Proof.
  intros Hs Hstatus.
  assert (Huser : user <> ∅).
  { intros ->. unfold dict_get in Hstatus. by rewrite lookup_empty in Hstatus. }
  rewrite verify_eq. unfold verify_run. rewrite Hs.
  cbn [head nonempty]. rewrite decide_False by done.
  by rewrite decide_True by done.
Qed.

(** X8: [verify] heals, and is idempotent once the author's roles show
    the grant.  For an author in the guild whose record says "passed"
    and whose member object does not show the role, with the role
    configured and in the catalog, the grant accepted and the channel
    taking messages, [verify] grants the role with one [add_roles] and
    replies "Assigned!".  Run again with an author object that shows the
    role (the cache's object once the gateway's member update has
    arrived, or an object built from the guild's answer) it calls no
    [add_roles], leaves the guild as it is and replies "Already
    assigned".  Run again with the same object and nothing in between,
    it calls [add_roles] once more and replies "Assigned!" once more,
    the guild staying as it is. *)
Theorem verify_heals_then_idempotent role member is_administrator st user rest mi :
  let ctx := GuildCtx member is_administrator in
  let id := handle_id member in
  users_by_discord_id (world st) (str_of_Z id) = Ok (user :: rest) ->
  dict_get user "status" = PyStr "passed" ->
  channel_fault (world st) = None ->
  role <> 0 ->
  role ∈ role_catalog (world st) ->
  members (world st) !! id = Some mi ->
  role ∉ handle_roles (world st) member ->
  grant_fault (world st) id role = None ->
  let st1 :=
    mkState (grant_in role id (world st))
      (trace st ++ [AddRoles id role; Reply (passed_embed "✅ Assigned!")]) in
  verify role ctx st = (Ok tt, st1)
  /\ roles_of (world st1) id = m_roles mi ∪ {[role]}
  /\ (forall adm,
        verify role (GuildCtx (Cached id) adm) (member_update id st1)
        = (Ok tt,
           mkState (world (member_update id st1))
             (trace st1 ++ [Reply (passed_embed "✅ Already assigned")])))
  /\ (forall name adm,
        verify role (GuildCtx (Fetched id name (roles_of (world st1) id)) adm) st1
        = (Ok tt,
           mkState (world st1)
             (trace st1 ++ [Reply (passed_embed "✅ Already assigned")])))
  /\ verify role ctx st1
     = (Ok tt,
        mkState (world st1)
          (trace st1 ++ [AddRoles id role; Reply (passed_embed "✅ Assigned!")])).
Proof.
  intros ctx id Hdata Hstatus Hchan Hcfg Hcat Hm Hlacks Hfault st1.
  assert (Hnone : add_roles_fault (world st) id role = None).
  { by rewrite (add_roles_fault_present _ _ _ mi), Hfault. }
  assert (Hw1 : world st1 = world (granted role id st)) by reflexivity.
  assert (Hroles : roles_of (world st1) id = m_roles mi ∪ {[role]}).
  { rewrite Hw1. by apply roles_of_granted. }
  assert (Hheld : role ∈ roles_of (world st1) id).
  { rewrite Hroles. apply elem_of_union. right. by apply elem_of_singleton. }
  assert (Hcat1 : role ∈ role_catalog (world st1)).
  { cbn [st1 world]. by rewrite grant_in_catalog. }
  assert (Hdata1 : users_by_discord_id (world st1) (str_of_Z id) = Ok (user :: rest)).
  { cbn [st1 world]. by rewrite grant_in_services. }
  assert (Hchan1 : channel_fault (world st1) = None).
  { cbn [st1 world]. by rewrite grant_in_services. }
  split; [|split; [done|split; [|split]]].
  - rewrite (verify_passed role ctx user rest st) by done.
    cbn [ctx author]. rewrite assign_granted by done.
    rewrite ctx_reply_accepted
      by (cbn [granted world]; by rewrite grant_in_services).
    unfold granted, st1. cbn [world trace role_status String.eqb]. fold id.
    by rewrite <- app_assoc.
  - intros adm.
    rewrite (verify_passed role _ user rest (member_update id st1)) by done.
    cbn [author]. rewrite assign_already; [|done | exact Hcat1 |].
    + by rewrite ctx_reply_accepted by exact Hchan1.
    + by rewrite handle_roles_member_update.
  - intros name adm.
    rewrite (verify_passed role _ user rest st1) by done.
    cbn [author]. rewrite assign_already; [|done..].
    by rewrite ctx_reply_accepted by done.
  - rewrite (verify_passed role ctx user rest st1) by done.
    cbn [ctx author]. rewrite assign_granted; [|done | done | |].
    + rewrite ctx_reply_accepted
        by (cbn [granted world]; by rewrite grant_in_services).
      unfold granted. fold id. rewrite grant_in_held by done.
      cbn [world trace role_status String.eqb].
      by rewrite <- app_assoc.
    + rewrite Hw1. by apply handle_roles_granted.
    + fold id. cbn [st1 world]. by apply grant_in_fault.
Qed.

Lemma verify_heals_then_idempotent_witness :
  (users_by_discord_id quiz_guild (str_of_Z 42) = Ok [<["status" := PyStr "passed"]> ∅]
   /\ 7 <> 0
   /\ (7 ∈ role_catalog quiz_guild)
   /\ members quiz_guild !! 42 = Some (Member "ann" ∅ true)
   /\ (7 ∉ handle_roles quiz_guild (Cached 42)))
  /\ (verify 7 (GuildCtx (Cached 42) false) (mkState quiz_guild [])).1 = Ok tt
  /\ trace (verify 7 (GuildCtx (Cached 42) false)
              (member_update 42
                 (verify 7 (GuildCtx (Cached 42) false) (mkState quiz_guild [])).2)).2
     = [AddRoles 42 7; Reply (passed_embed "✅ Assigned!");
        Reply (passed_embed "✅ Already assigned")].
Proof.
  assert (H1 : users_by_discord_id (world (mkState quiz_guild []))
                 (str_of_Z (handle_id (Cached 42)))
               = Ok [<["status" := PyStr "passed"]> ∅]) by reflexivity.
  assert (H2 : dict_get (<["status" := PyStr "passed"]> ∅) "status" = PyStr "passed")
    by reflexivity.
  assert (H3 : channel_fault (world (mkState quiz_guild [])) = None)
    by reflexivity.
  assert (H4 : 7 <> 0) by lia.
  assert (H5 : 7 ∈ role_catalog (world (mkState quiz_guild []))) by by_decide.
  assert (H6 : members (world (mkState quiz_guild [])) !! handle_id (Cached 42)
               = Some (Member "ann" ∅ true)) by reflexivity.
  assert (H7 : 7 ∉ handle_roles (world (mkState quiz_guild [])) (Cached 42))
    by by_decide.
  assert (H8 : grant_fault (world (mkState quiz_guild []))
                 (handle_id (Cached 42)) 7 = None) by reflexivity.
  split; [done|].
  destruct (verify_heals_then_idempotent 7 (Cached 42) false (mkState quiz_guild [])
              _ [] (Member "ann" ∅ true) H1 H2 H3 H4 H5 H6 H7 H8)
    as (Hfirst & _ & Hupdated & _).
  cbn [handle_id world trace app] in Hfirst, Hupdated.
  rewrite Hfirst. cbn [fst snd]. split; [done|].
  by rewrite (Hupdated false).
Defined.

(** ** What a sweep leaves behind *)

Lemma evolves_catalog role P st st' :
  evolves role P st st' -> role_catalog (world st') = role_catalog (world st).
Proof. intros (-> & _). reflexivity. Qed.

Lemma evolves_passed_users role P st st' :
  evolves role P st st' -> passed_users (world st') = passed_users (world st).
Proof. intros (-> & _). reflexivity. Qed.

Lemma evolves_resolves role P st st' id :
  evolves role P st st' -> resolves (world st') id = resolves (world st) id.
Proof.
  intros (Hw & Hm & _). unfold resolves.
  assert (Hf : fetch_fault (world st') id = fetch_fault (world st) id)
    by by rewrite Hw.
  rewrite Hf. by destruct (Hm id) as [->|(mi & -> & ->)].
Qed.

Lemma evolves_add_roles_fault role P st st' member r :
  evolves role P st st' ->
  add_roles_fault (world st') member r = add_roles_fault (world st) member r.
Proof.
  intros (Hw & Hm & _). unfold add_roles_fault.
  assert (Hf : grant_fault (world st') member r = grant_fault (world st) member r)
    by by rewrite Hw.
  rewrite Hf. by destruct (Hm member) as [->|(mi & -> & ->)].
Qed.

Lemma evolves_holds role P st st' member r :
  evolves role P st st' ->
  r ∈ roles_of (world st) member -> r ∈ roles_of (world st') member.
Proof.
  intros Hev Hr. destruct (evolves_roles _ _ _ _ member Hev) as [->| ->]; [done|].
  apply elem_of_union. by left.
Qed.

Lemma settled_evolves role P st st' user :
  evolves role P st st' ->
  settled role (world st) user -> settled role (world st') user.
Proof.
  intros Hev Hset d_id Hid Hres.
  rewrite (evolves_resolves _ _ _ _ _ Hev) in Hres.
  rewrite (evolves_catalog _ _ _ _ Hev), (evolves_add_roles_fault _ _ _ _ _ _ Hev).
  destruct (Hset d_id Hid Hres) as [H|[H|[H|H]]]; eauto using evolves_holds.
Qed.

Lemma sync_user_evolves role user c st :
  evolves role (fun _ => True) st (sync_user role user c st).2.
Proof. by apply respects_sync_user. Qed.

Lemma sync_loop_evolves role users c st :
  evolves role (fun _ => True) st (sync_loop role users c st).2.
Proof. by apply respects_sync_loop. Qed.

(** A turn that ends leaves its user settled. *)
Lemma sync_user_settles role user c st c' st' :
  sync_user role user c st = (Ok c', st') -> settled role (world st') user.
Proof.
  intros Hrun. assert (Hev := sync_user_evolves role user c st).
  rewrite Hrun in Hev. cbn [snd] in Hev.
  intros d_id Hid Hres. rewrite (evolves_resolves _ _ _ _ _ Hev) in Hres.
  rewrite sync_user_eq in Hrun. unfold sync_user_run in Hrun.
  rewrite Hid in Hrun. rewrite resolve_resolves in Hres.
  destruct (resolve (world st) d_id) as [member|] eqn:Hr; [|done].
  assert (Hmid := resolve_id _ _ _ Hr).
  destruct (assign_cases role member st)
    as [(Hcfg & H) | [(_ & Hcat & H) | [(_ & _ & Hhas & H)
       | [(_ & _ & _ & Hf & H) | (e & _ & _ & _ & Hf & H)]]]];
    rewrite H in Hrun; injection Hrun as _ <-.
  - by left.
  - right. by left.
  - right. right. left. by apply (resolve_roles _ _ member).
  - right. right. left. rewrite Hmid in *.
    destruct (add_roles_fault_absent _ _ _ Hf) as (mi & Hm).
    rewrite (roles_of_granted role d_id st mi Hm).
    apply elem_of_union. right. by apply elem_of_singleton.
  - right. right. right. unfold refused. cbn [world]. rewrite Hmid in Hf.
    by rewrite Hf.
Qed.

Lemma sync_loop_settles role users :
  forall c st c' st',
    sync_loop role users c st = (Ok c', st') ->
    Forall (settled role (world st')) users.
Proof.
  induction users as [|user rest IH]; intros c st c' st'; cbn [sync_loop].
  - intros _. constructor.
  - unfold bind.
    destruct (sync_user role user c st) as [[c1|e] st1] eqn:Hstep; [|done].
    intros Hrest. constructor; [|by eapply IH].
    assert (Hev := sync_loop_evolves role rest c1 st1).
    rewrite Hrest in Hev. cbn [snd] in Hev.
    eapply settled_evolves; [exact Hev|]. by eapply sync_user_settles.
Qed.

(** A loop that ends has read every identity. *)
Lemma sync_loop_identities role users :
  forall c st c' st',
    sync_loop role users c st = (Ok c', st') ->
    forallb has_identity users = true.
Proof.
  induction users as [|user rest IH]; intros c st c' st'; cbn [sync_loop forallb].
  - done.
  - unfold bind.
    destruct (sync_user role user c st) as [[c1|e] st1] eqn:Hstep; [|done].
    intros Hrest. apply andb_true_intro. split; [|by eapply IH].
    rewrite sync_user_eq in Hstep. unfold sync_user_run in Hstep.
    unfold has_identity. by destruct (identity_of user).
Qed.

(** With every member update arrived, a member object shows the roles
    the guild has given. *)
Lemma resolve_roles_refreshed w id member :
  unseen w = ∅ -> resolve w id = Some member ->
  handle_roles w member = roles_of w id.
Proof.
  intros Hseen. unfold resolve, roles_of.
  destruct (members w !! id) as [mi|] eqn:Hm; [|done].
  destruct (m_cached mi).
  - intros [= <-]. cbn [handle_roles]. unfold unseen_of, roles_of.
    rewrite Hseen, lookup_empty, Hm. cbn [default]. set_solver.
  - destruct (fetch_fault w id); [done|]. by intros [= <-].
Qed.

(** Over settled users, with the cache up to date, the loop grants
    nothing. *)
Lemma sync_loop_settled role users :
  forall c st,
    unseen (world st) = ∅ ->
    Forall (settled role (world st)) users ->
    forallb has_identity users = true ->
    exists c' st',
      sync_loop role users c st = (Ok c', st')
      /\ world st' = world st /\ assigned c' = assigned c.
Proof.
  induction users as [|user rest IH]; intros c st Hseen Hset Hall;
    cbn [sync_loop forallb] in *.
  - by exists c, st.
  - apply andb_prop in Hall as [Huser Hrest].
    apply Forall_cons in Hset as [Hu Hset].
    assert (Hstep : exists c1 st1,
      sync_user role user c st = (Ok c1, st1)
      /\ world st1 = world st /\ assigned c1 = assigned c).
    { rewrite sync_user_eq. unfold sync_user_run. unfold has_identity in Huser.
      destruct (identity_of user) as [d_id|e] eqn:Hid; [|done].
      destruct (resolve (world st) d_id) as [member|] eqn:Hres;
        [|by do 2 eexists].
      assert (Hmid := resolve_id _ _ _ Hres).
      destruct (assign_cases role member st)
        as [(Hcfg & H) | [(Hcfg & Hcat & H) | [(_ & _ & Hhas & H)
           | [(Hcfg & Hcat & Hlacks & Hf & H) | (e & _ & _ & _ & Hf & H)]]]];
        rewrite H.
      - by do 2 eexists.
      - by do 2 eexists.
      - by do 2 eexists.
      - exfalso.
        rewrite (resolve_roles_refreshed _ _ _ Hseen Hres) in Hlacks.
        rewrite Hmid in Hf.
        assert (Hr : resolves (world st) d_id = true)
          by by rewrite resolve_resolves, Hres.
        by destruct (Hu d_id Hid Hr) as [?|[?|[?|Hne]]].
      - by do 2 eexists. }
    destruct Hstep as (c1 & st1 & Hstep & Hw1 & Ha1).
    unfold bind. rewrite Hstep.
    destruct (IH c1 st1) as (c' & st' & Hloop & Hw & Ha);
      [by rewrite Hw1 | by rewrite Hw1 | done |].
    exists c', st'. split; [done|]. split; congruence.
Qed.

(** X9: take a sweep that ended, let the member updates of its grants
    reach the cache, and let the guild answer as it did (what it refused
    it still refuses, the listing is the same).  A second sweep then
    grants nothing: it ends too, reports 0 newly assigned, and leaves
    the guild as the first sweep left it. *)
Theorem second_sweep_assigns_nothing role ctx st st1 :
  sync role ctx st = (Ok tt, st1) ->
  exists c evs st2,
    sync role ctx (refreshed st1) = (Ok tt, st2)
    /\ trace st2 = trace st1 ++ [syncing] ++ evs ++ [EditMessage (sync_report c)]
    /\ assigned c = 0%nat
    /\ world st2 = world (refreshed st1).
Proof.
  rewrite !sync_eq. unfold sync_run.
  destruct (administrator ctx); [|done].
  destruct (channel_fault (world st)) eqn:Hchan; [done|].
  destruct (passed_users (world st)) as [users|e] eqn:Husers; [|done].
  set (s0 := mkState (world st) (trace st ++ [syncing])).
  destruct (sync_loop role users (Counters 0 0 0 0) s0) as [[c0|e] s2] eqn:Hloop;
    [|done].
  assert (Hev : evolves role (fun _ => True) s0 s2).
  { change s2 with (Ok c0, s2).2. rewrite <- Hloop. apply sync_loop_evolves. }
  assert (Hchan2 : channel_fault (world s2) = None).
  { by rewrite (evolves_channel _ _ _ _ Hev). }
  rewrite Hchan2. intros [= <-].
  cbn [refreshed world trace channel_fault passed_users set_guild].
  rewrite Hchan2, (evolves_passed_users _ _ _ _ Hev). cbn [s0 world].
  rewrite Husers.
  set (s3 := mkState (set_guild (members (world s2)) ∅ (world s2))
               ((trace s2 ++ [EditMessage (sync_report c0)]) ++ [syncing])).
  destruct (sync_loop_settled role users (Counters 0 0 0 0) s3)
    as (c & s4 & Hloop2 & Hw & Ha).
  { reflexivity. }
  { exact (sync_loop_settles role users _ _ _ _ Hloop). }
  { exact (sync_loop_identities role users _ _ _ _ Hloop). }
  assert (Hev2 : evolves role (fun _ => True) s3 s4).
  { change s4 with (Ok c, s4).2. rewrite <- Hloop2. apply sync_loop_evolves. }
  destruct (evolves_trace _ _ _ _ Hev2) as (evs & Htrace & _).
  rewrite Hloop2, Hw. cbn [s3 world channel_fault set_guild]. rewrite Hchan2.
  exists c, evs. eexists. split; [reflexivity|]. cbn [trace world].
  split; [|done]. rewrite Htrace. cbn [s3 trace]. by rewrite <- !app_assoc.
Qed.

Lemma second_sweep_assigns_nothing_witness :
  sync 7 (GuildCtx (Cached 42) true) (mkState quiz_guild [])
  = (Ok tt, (sync 7 (GuildCtx (Cached 42) true) (mkState quiz_guild [])).2)
  /\ (exists c evs st2,
       sync 7 (GuildCtx (Cached 42) true)
         (refreshed (sync 7 (GuildCtx (Cached 42) true) (mkState quiz_guild [])).2)
       = (Ok tt, st2)
       /\ trace st2
          = trace (sync 7 (GuildCtx (Cached 42) true) (mkState quiz_guild [])).2
              ++ [syncing] ++ evs ++ [EditMessage (sync_report c)]
       /\ assigned c = 0%nat
       /\ world st2
          = world (refreshed
                     (sync 7 (GuildCtx (Cached 42) true) (mkState quiz_guild [])).2))
  /\ mutation_count
       (trace (sync 7 (GuildCtx (Cached 42) true)
                 (sync 7 (GuildCtx (Cached 42) true) (mkState quiz_guild [])).2).2)
     = 2%nat.
Proof.
  assert (H : sync 7 (GuildCtx (Cached 42) true) (mkState quiz_guild [])
              = (Ok tt, (sync 7 (GuildCtx (Cached 42) true) (mkState quiz_guild [])).2))
    by by vm_compute.
  split; [exact H|]. split; [|by vm_compute].
  exact (second_sweep_assigns_nothing 7 (GuildCtx (Cached 42) true)
           (mkState quiz_guild []) _ H).
Defined.

(** X10: a sweep that ended has converged.  Every listed user who can
    be resolved holds the role afterwards, provided the role is
    configured and in the catalog and the guild does not refuse the
    grant for that user. *)
Theorem sweep_converges role ctx st st' users user d_id :
  passed_users (world st) = Ok users ->
  sync role ctx st = (Ok tt, st') ->
  user ∈ users ->
  identity_of user = Ok d_id ->
  resolves (world st) d_id = true ->
  role <> 0 ->
  role ∈ role_catalog (world st) ->
  add_roles_fault (world st) d_id role = None ->
  role ∈ roles_of (world st') d_id.
Proof.
  intros Husers Hrun Hin Hid Hres Hcfg Hcat Hfault.
  rewrite sync_eq in Hrun. unfold sync_run in Hrun.
  destruct (administrator ctx); [|done].
  destruct (channel_fault (world st)); [done|].
  rewrite Husers in Hrun.
  set (s0 := mkState (world st) (trace st ++ [syncing])) in *.
  destruct (sync_loop role users (Counters 0 0 0 0) s0) as [[c0|e] s2] eqn:Hloop;
    [|done].
  assert (Hev : evolves role (fun _ => True) s0 s2).
  { change s2 with (Ok c0, s2).2. rewrite <- Hloop. apply sync_loop_evolves. }
  assert (Hw : world st' = world s2).
  { destruct (channel_fault (world s2)); [done|]. by injection Hrun as <-. }
  rewrite Hw.
  assert (Hset := sync_loop_settles role users _ _ _ _ Hloop).
  rewrite Forall_forall in Hset. specialize (Hset user Hin d_id Hid).
  rewrite (evolves_resolves _ _ _ _ _ Hev), (evolves_catalog _ _ _ _ Hev),
    (evolves_add_roles_fault _ _ _ _ _ _ Hev) in Hset.
  by destruct (Hset Hres) as [?|[?|[?|Hne]]].
Qed.

Lemma sweep_converges_witness :
  (<["discord_id" := PyStr "42"]> ∅ : row) ∈ [(<["discord_id" := PyStr "42"]> ∅ : row)]
  /\ (7 ∈ roles_of
            (world (sync 7 (GuildCtx (Fetched 43 "bob" {[7]}) true)
                      (mkState short_listing_guild [])).2) 42).
Proof.
  assert (H1 : passed_users (world (mkState short_listing_guild []))
               = Ok [<["discord_id" := PyStr "42"]> ∅]) by reflexivity.
  assert (H2 : sync 7 (GuildCtx (Fetched 43 "bob" {[7]}) true)
                 (mkState short_listing_guild [])
               = (Ok tt, (sync 7 (GuildCtx (Fetched 43 "bob" {[7]}) true)
                            (mkState short_listing_guild [])).2))
    by by vm_compute.
  assert (H3 : (<["discord_id" := PyStr "42"]> ∅ : row)
               ∈ [(<["discord_id" := PyStr "42"]> ∅ : row)])
    by by apply list_elem_of_singleton.
  assert (H4 : 7 <> 0) by lia.
  assert (H5 : 7 ∈ role_catalog (world (mkState short_listing_guild [])))
    by by_decide.
  split; [exact H3|].
  exact (sweep_converges 7 (GuildCtx (Fetched 43 "bob" {[7]}) true)
           (mkState short_listing_guild []) _ _ _ 42
           H1 H2 H3 eq_refl eq_refl H4 H5 eq_refl).
Defined.

(** ** What a sweep leaves alone *)

Lemma sync_user_frame role user c st other :
  identity_of user <> Ok other ->
  members (world (sync_user role user c st).2) !! other
  = members (world st) !! other.
Proof.
  intros Hother. rewrite sync_user_eq. unfold sync_user_run.
  destruct (identity_of user) as [d_id|e]; [|done].
  destruct (resolve (world st) d_id) as [member|] eqn:Hres; [|done].
  assert (Hne : other <> handle_id member).
  { rewrite (resolve_id _ _ _ Hres). congruence. }
  destruct (assign_frame role member st other Hne) as [Hframe _].
  by destruct (assign_role_to_member role member st) as [[[success reason]|e] st'].
Qed.

Lemma sync_loop_frame role users other :
  Forall (fun user => identity_of user <> Ok other) users ->
  forall c st,
    members (world (sync_loop role users c st).2) !! other
    = members (world st) !! other.
Proof.
  induction 1 as [|user rest Huser Hrest IH]; intros c st; cbn [sync_loop].
  - done.
  - unfold bind. assert (Hstep := sync_user_frame role user c st other Huser).
    destruct (sync_user role user c st) as [[c1|e] st1]; cbn [snd] in *;
      [|done].
    by rewrite IH.
Qed.

(** X11: a sweep leaves alone everybody the backend does not list: the
    entry of a member whose id is the identity of no listed user is the
    same after [sync] as before, however the sweep ends. *)
Theorem sweep_leaves_unlisted_alone role ctx st users other :
  passed_users (world st) = Ok users ->
  Forall (fun user => identity_of user <> Ok other) users ->
  members (world (sync role ctx st).2) !! other = members (world st) !! other.
Proof.
  intros Husers Hall. rewrite sync_eq. unfold sync_run.
  destruct (administrator ctx); [|done].
  destruct (channel_fault (world st)); [done|]. rewrite Husers.
  set (s0 := mkState (world st) (trace st ++ [syncing])).
  assert (Hframe := sync_loop_frame role users other Hall (Counters 0 0 0 0) s0).
  destruct (sync_loop role users (Counters 0 0 0 0) s0) as [[c|e] s2];
    cbn [snd] in Hframe; [|done].
  by destruct (channel_fault (world s2)).
Qed.

Lemma sweep_leaves_unlisted_alone_witness :
  Forall (fun user => identity_of user <> Ok 43) [(<["discord_id" := PyStr "42"]> ∅ : row)]
  /\ members (world (sync 7 (GuildCtx (Cached 42) true)
                       (mkState short_listing_guild [])).2) !! 43
     = Some (Member "bob" {[7]} false).
Proof.
  assert (H1 : passed_users (world (mkState short_listing_guild []))
               = Ok [<["discord_id" := PyStr "42"]> ∅]) by reflexivity.
  assert (H2 : Forall (fun user => identity_of user <> Ok 43)
                 [(<["discord_id" := PyStr "42"]> ∅ : row)]).
  { constructor; [|constructor]. intros H. vm_compute in H. discriminate H. }
  split; [exact H2|].
  rewrite (sweep_leaves_unlisted_alone 7 (GuildCtx (Cached 42) true)
             (mkState short_listing_guild []) _ 43 H1 H2).
  reflexivity.
Defined.

(** ** A sweep without a usable role *)

Lemma assign_misconfigured role (member : handle) st :
  role = 0 \/ role ∉ role_catalog (world st) ->
  exists reason,
    assign_role_to_member role member st = (Ok (false, reason), st).
Proof.
  intros Hmis. destruct (decide (role = 0)) as [->|Hcfg].
  - eexists. apply assign_unconfigured.
  - destruct Hmis as [?|Hcat]; [done|]. eexists. by apply assign_role_missing.
Qed.

Lemma sync_loop_misconfigured role users :
  forall c st c' st',
    role = 0 \/ role ∉ role_catalog (world st) ->
    sync_loop role users c st = (Ok c', st') ->
    st' = st /\ assigned c' = assigned c /\ already_had c' = already_had c.
Proof.
  induction users as [|user rest IH]; intros c st c' st' Hmis; cbn [sync_loop].
  - by intros [= <- <-].
  - unfold bind. rewrite sync_user_eq. unfold sync_user_run.
    destruct (identity_of user) as [d_id|e]; [|done].
    destruct (resolve (world st) d_id) as [member|].
    + destruct (assign_misconfigured role member st Hmis) as (reason & ->).
      intros Hrest. by apply IH in Hrest.
    + intros Hrest. by apply IH in Hrest.
Qed.

(** X13: with the role unset, or not in the guild's catalog, a sweep
    that ends has called [add_roles] for nobody, sent nothing but its
    two messages and left the guild as it was, and its report shows 0
    newly assigned and 0 already had: every listed user is counted as
    failed or as not in server. *)
Theorem sweep_without_role_only_reports role ctx st st' users :
  role = 0 \/ role ∉ role_catalog (world st) ->
  passed_users (world st) = Ok users ->
  sync role ctx st = (Ok tt, st') ->
  exists c,
    st' = mkState (world st) (trace st ++ [syncing; EditMessage (sync_report c)])
    /\ assigned c = 0%nat
    /\ already_had c = 0%nat
    /\ (failed c + not_in_server c)%nat = length users.
Proof.
  intros Hmis Husers. rewrite sync_eq. unfold sync_run.
  destruct (administrator ctx); [|done].
  destruct (channel_fault (world st)) eqn:Hchan; [done|]. rewrite Husers.
  set (s0 := mkState (world st) (trace st ++ [syncing])).
  destruct (sync_loop role users (Counters 0 0 0 0) s0) as [[c|e] s2] eqn:Hloop;
    [|done].
  destruct (sync_loop_misconfigured role users _ s0 _ _ Hmis Hloop)
    as (-> & Ha & Hh).
  assert (Htotal := sync_loop_counts role users _ _ _ _ Hloop).
  cbn [s0 world trace]. rewrite Hchan. intros [= <-].
  exists c. cbn [assigned already_had] in Ha, Hh.
  split; [by rewrite <- app_assoc|]. split; [done|]. split; [done|].
  unfold total in Htotal. cbn [assigned already_had failed not_in_server] in Htotal.
  lia.
Qed.

Lemma sweep_without_role_only_reports_witness :
  (7 = 0 \/ 7 ∉ role_catalog (world (mkState roleless_guild [])))
  /\ exists c,
       (sync 7 (GuildCtx (Cached 42) true) (mkState roleless_guild [])).2
       = mkState roleless_guild [syncing; EditMessage (sync_report c)]
       /\ assigned c = 0%nat
       /\ already_had c = 0%nat
       /\ (failed c + not_in_server c)%nat = 3%nat.
Proof.
  assert (H1 : 7 = 0 \/ 7 ∉ role_catalog (world (mkState roleless_guild [])))
    by (right; by_decide).
  assert (H2 : passed_users (world (mkState roleless_guild []))
               = passed_users quiz_guild) by reflexivity.
  assert (H3 : sync 7 (GuildCtx (Cached 42) true) (mkState roleless_guild [])
               = (Ok tt, (sync 7 (GuildCtx (Cached 42) true)
                            (mkState roleless_guild [])).2))
    by by vm_compute.
  split; [exact H1|].
  exact (sweep_without_role_only_reports 7 (GuildCtx (Cached 42) true)
           (mkState roleless_guild []) _ _ H1 H2 H3).
Defined.

(** ** How much a sweep asks of the guild *)

Lemma mutation_count_app evs evs' :
  mutation_count (evs ++ evs') = (mutation_count evs + mutation_count evs')%nat.
Proof.
  induction evs as [|ev evs IH]; [done|].
  cbn [app mutation_count]. destruct ev; rewrite IH; lia.
Qed.

Lemma grants_to_app member evs evs' :
  grants_to member (evs ++ evs')
  = (grants_to member evs + grants_to member evs')%nat.
Proof.
  induction evs as [|ev evs IH]; [done|].
  cbn [app grants_to]. destruct ev; rewrite IH; try lia.
  destruct (decide (member0 = member)); lia.
Qed.

Lemma listed_times_cons member user users :
  listed_times member (user :: users)
  = (listed_times member [user] + listed_times member users)%nat.
Proof.
  cbn [listed_times]. destruct (identity_of user) as [d_id|e]; [|done].
  by destruct (decide (d_id = member)).
Qed.

(** One turn calls [add_roles] at most once, and only for the user of
    the turn. *)
Lemma sync_user_events role user c st :
  exists evs,
    trace (sync_user role user c st).2 = trace st ++ evs
    /\ (mutation_count evs <= 1)%nat
    /\ (forall member,
          (grants_to member evs <= listed_times member [user])%nat).
Proof.
  rewrite sync_user_eq. unfold sync_user_run.
  assert (Hnone : exists evs,
    trace st = trace st ++ evs
    /\ (mutation_count evs <= 1)%nat
    /\ (forall member, (grants_to member evs <= listed_times member [user])%nat)).
  { exists []. rewrite app_nil_r. cbn [mutation_count grants_to].
    split; [done | split; [lia | intros; lia]]. }
  cbn [listed_times] in *.
  destruct (identity_of user) as [d_id|e]; [|done].
  destruct (resolve (world st) d_id) as [member|] eqn:Hres; [|done].
  assert (Hmid := resolve_id _ _ _ Hres).
  destruct (assign_events role member st) as (evs & Htrace & Hmut & Hother & Hown & _).
  exists evs. split; [|split; [done|]].
  - by destruct (assign_role_to_member role member st) as [[[success reason]|e] st'].
  - intros m. destruct (decide (d_id = m)) as [<-|Hne].
    + rewrite <- Hmid. lia.
    + rewrite Hother; [lia|]. congruence.
Qed.

Lemma sync_loop_events role users :
  forall c st,
    exists evs,
      trace (sync_loop role users c st).2 = trace st ++ evs
      /\ (mutation_count evs <= length users)%nat
      /\ (forall member, (grants_to member evs <= listed_times member users)%nat).
Proof.
  induction users as [|user rest IH]; intros c st; cbn [sync_loop length].
  - exists []. rewrite app_nil_r. cbn. split; [done | split; [lia | intros; lia]].
  - unfold bind.
    destruct (sync_user_events role user c st) as (evs1 & Ht1 & Hm1 & Hg1).
    destruct (sync_user role user c st) as [[c1|e] st1]; cbn [snd] in *.
    + destruct (IH c1 st1) as (evs2 & Ht2 & Hm2 & Hg2).
      exists (evs1 ++ evs2). rewrite Ht2, Ht1, mutation_count_app.
      split; [by rewrite <- app_assoc|]. split; [lia|].
      intros member. rewrite grants_to_app, listed_times_cons.
      specialize (Hg1 member). specialize (Hg2 member). lia.
    + exists evs1. split; [done|]. split; [lia|].
      intros member. rewrite listed_times_cons.
      specialize (Hg1 member). lia.
Qed.

(** X17: however a sweep ends, it has called [add_roles] for each member
    at most as many times as the listing names that member: at most once
    for a member listed once, never for one who is not listed; in all,
    at most once for each listed row. *)
Theorem sweep_grants_at_most_once_each role ctx st users :
  passed_users (world st) = Ok users ->
  exists evs,
    trace (sync role ctx st).2 = trace st ++ evs
    /\ (forall member, (grants_to member evs <= listed_times member users)%nat)
    /\ (mutation_count evs <= length users)%nat.
Proof.
  intros Husers. rewrite sync_eq. unfold sync_run.
  destruct (administrator ctx).
  2: { exists []. rewrite app_nil_r. cbn.
       split; [done | split; [intros; lia | lia]]. }
  destruct (channel_fault (world st)).
  { exists [syncing]. cbn. split; [done | split; [intros; lia | lia]]. }
  rewrite Husers.
  set (s0 := mkState (world st) (trace st ++ [syncing])).
  destruct (sync_loop_events role users (Counters 0 0 0 0) s0)
    as (evs & Htrace & Hmut & Hgrants).
  destruct (sync_loop role users (Counters 0 0 0 0) s0) as [[c|e] s2];
    cbn [snd] in Htrace.
  - exists ([syncing] ++ evs ++ [EditMessage (sync_report c)]).
    split; [|split].
    + destruct (channel_fault (world s2)); cbn [snd trace]; rewrite Htrace;
        cbn [s0 trace]; by rewrite <- !app_assoc.
    + intros member. rewrite !grants_to_app. cbn [grants_to syncing].
      specialize (Hgrants member). lia.
    + rewrite !mutation_count_app. cbn [mutation_count syncing]. lia.
  - exists ([syncing] ++ evs). split; [|split].
    + cbn [snd]. rewrite Htrace. cbn [s0 trace]. by rewrite <- app_assoc.
    + intros member. rewrite grants_to_app. cbn [grants_to syncing].
      specialize (Hgrants member). lia.
    + rewrite mutation_count_app. cbn [mutation_count syncing]. lia.
Qed.

Lemma sweep_grants_at_most_once_each_witness :
  passed_users (world (mkState double_listing_guild []))
  = Ok [<["discord_id" := PyStr "42"]> ∅; <["discord_id" := PyInt 42]> ∅]
  /\ (exists evs,
       trace (sync 7 (GuildCtx (Cached 42) true)
                (mkState double_listing_guild [])).2 = [] ++ evs
       /\ (forall member,
             (grants_to member evs
              <= listed_times member
                   [<["discord_id" := PyStr "42"]> ∅; <["discord_id" := PyInt 42]> ∅])%nat)
       /\ (mutation_count evs <= 2)%nat)
  /\ grants_to 42
       (trace (sync 7 (GuildCtx (Cached 42) true)
                 (mkState double_listing_guild [])).2) = 2%nat
  /\ grants_to 43
       (trace (sync 7 (GuildCtx (Cached 42) true)
                 (mkState double_listing_guild [])).2) = 0%nat.
Proof.
  assert (H : passed_users (world (mkState double_listing_guild []))
              = Ok [<["discord_id" := PyStr "42"]> ∅; <["discord_id" := PyInt 42]> ∅])
    by reflexivity.
  split; [exact H|]. split; [|split; by vm_compute].
  exact (sweep_grants_at_most_once_each 7 (GuildCtx (Cached 42) true)
           (mkState double_listing_guild []) _ H).
Defined.

(** The report accounts for every [add_roles]. *)
Lemma sync_user_accounts role user c st c1 st1 :
  sync_user role user c st = (Ok c1, st1) ->
  exists evs,
    trace st1 = trace st ++ evs
    /\ (assigned c1 <= assigned c + mutation_count evs)%nat
    /\ (assigned c + failed c + mutation_count evs <= assigned c1 + failed c1)%nat.
Proof.
  rewrite sync_user_eq. unfold sync_user_run.
  destruct (identity_of user) as [d_id|e]; [|done].
  destruct (resolve (world st) d_id) as [member|].
  2: { intros [= <- <-]. exists []. rewrite app_nil_r. cbn. split; [done | lia]. }
  destruct (assign_cases role member st)
    as [(_ & H) | [(_ & _ & H) | [(_ & _ & _ & H)
       | [(_ & _ & _ & _ & H) | (e & _ & _ & _ & _ & H)]]]];
    rewrite H; intros [= <- <-].
  - exists []. rewrite app_nil_r. cbn. split; [done | lia].
  - exists []. rewrite app_nil_r. cbn. split; [done | lia].
  - exists []. rewrite app_nil_r. cbn. split; [done | lia].
  - exists [AddRoles (handle_id member) role]. cbn. split; [done | lia].
  - eexists [AddRoles (handle_id member) role; Print _]. cbn.
    split; [by rewrite <- app_assoc | lia].
Qed.

Lemma sync_loop_accounts role users :
  forall c st c' st',
    sync_loop role users c st = (Ok c', st') ->
    exists evs,
      trace st' = trace st ++ evs
      /\ (assigned c' <= assigned c + mutation_count evs)%nat
      /\ (assigned c + failed c + mutation_count evs <= assigned c' + failed c')%nat.
Proof.
  induction users as [|user rest IH]; intros c st c' st'; cbn [sync_loop].
  - intros [= <- <-]. exists []. rewrite app_nil_r. cbn. split; [done | lia].
  - unfold bind.
    destruct (sync_user role user c st) as [[c1|e] st1] eqn:Hstep; [|done].
    intros Hrest.
    destruct (sync_user_accounts _ _ _ _ _ _ Hstep) as (evs1 & Ht1 & Ha1 & Hb1).
    destruct (IH _ _ _ _ Hrest) as (evs2 & Ht2 & Ha2 & Hb2).
    exists (evs1 ++ evs2). rewrite Ht2, Ht1, mutation_count_app.
    split; [by rewrite <- app_assoc | lia].
Qed.

(** X21: the report of a sweep that ended accounts for every
    [add_roles] the sweep called: the number of calls is at least the
    number reported as newly assigned and at most that number plus the
    number reported as failed. *)
Theorem sweep_report_accounts_for_grants role ctx st st' :
  sync role ctx st = (Ok tt, st') ->
  exists c evs,
    trace st' = trace st ++ [syncing] ++ evs ++ [EditMessage (sync_report c)]
    /\ (assigned c <= mutation_count evs)%nat
    /\ (mutation_count evs <= assigned c + failed c)%nat.
Proof.
  rewrite sync_eq. unfold sync_run.
  destruct (administrator ctx); [|done].
  destruct (channel_fault (world st)); [done|].
  destruct (passed_users (world st)) as [users|e]; [|done].
  set (s0 := mkState (world st) (trace st ++ [syncing])).
  destruct (sync_loop role users (Counters 0 0 0 0) s0) as [[c|e] s2] eqn:Hloop;
    [|done].
  destruct (sync_loop_accounts _ _ _ _ _ _ Hloop) as (evs & Htrace & Ha & Hb).
  cbn [assigned failed] in Ha, Hb.
  destruct (channel_fault (world s2)); [done|]. intros [= <-].
  exists c, evs. cbn [trace]. rewrite Htrace. cbn [s0 trace].
  split; [by rewrite <- !app_assoc | lia].
Qed.

Lemma sweep_report_accounts_for_grants_witness :
  sync 7 (GuildCtx (Cached 42) true) (mkState locked_guild [])
  = (Ok tt, (sync 7 (GuildCtx (Cached 42) true) (mkState locked_guild [])).2)
  /\ exists c evs,
       trace (sync 7 (GuildCtx (Cached 42) true) (mkState locked_guild [])).2
       = [] ++ [syncing] ++ evs ++ [EditMessage (sync_report c)]
       /\ (assigned c <= mutation_count evs)%nat
       /\ (mutation_count evs <= assigned c + failed c)%nat.
Proof.
  assert (H : sync 7 (GuildCtx (Cached 42) true) (mkState locked_guild [])
              = (Ok tt, (sync 7 (GuildCtx (Cached 42) true)
                           (mkState locked_guild [])).2))
    by by vm_compute.
  split; [exact H|].
  exact (sweep_report_accounts_for_grants 7 (GuildCtx (Cached 42) true)
           (mkState locked_guild []) _ H).
Defined.

(** ** When the commands fail *)

(** X19: [sync] ends normally exactly when its author is an
    administrator, the channel takes messages, the backend answers the
    listing, and [int()] can read the [discord_id] of every listed user;
    member lookups and grants that fail never stop it. *)
Theorem sweep_ends_iff role ctx st :
  (sync role ctx st).1 = Ok tt
  <-> administrator ctx = true
      /\ channel_fault (world st) = None
      /\ exists users,
           passed_users (world st) = Ok users
           /\ forallb has_identity users = true.
Proof.
  split.
  - rewrite sync_eq. unfold sync_run.
    destruct (administrator ctx); [|done].
    destruct (channel_fault (world st)); [done|].
    destruct (passed_users (world st)) as [users|e]; [|done].
    set (s0 := mkState (world st) (trace st ++ [syncing])).
    destruct (sync_loop role users (Counters 0 0 0 0) s0) as [[c|e] s2] eqn:Hloop;
      [|done].
    intros _. split; [done | split; [done|]]. exists users. split; [done|].
    by eapply sync_loop_identities.
  - intros (Hadmin & Hchan & users & Husers & Hall).
    destruct (sync_completes role ctx st users Hadmin Hchan Husers Hall)
      as (c & evs & -> & _).
    done.
Qed.

Lemma ctx_reply_result e st :
  (ctx_reply e st).1
  = match channel_fault (world st) with
    | Some x => Raise x
    | None => Ok tt
    end.
Proof.
  unfold ctx_reply. unfold_monad. cbn [world trace].
  by destruct (channel_fault (world st)).
Qed.

Lemma assign_channel role member st :
  channel_fault (world (assign_role_to_member role member st).2)
  = channel_fault (world st).
Proof. apply (evolves_channel role (fun _ => True)). by apply respects_assign. Qed.

(** What [assign_role_to_member] does with the author of a command. *)
Lemma assign_author role ctx st :
  (role <> 0 /\ in_direct_message ctx
   /\ assign_role_to_member role (author ctx) st = (Raise no_guild_attribute, st))
  \/ (~ (role <> 0 /\ in_direct_message ctx)
      /\ exists success reason st',
           assign_role_to_member role (author ctx) st
           = (Ok (success, reason), st')
           /\ channel_fault (world st') = channel_fault (world st)).
Proof.
  destruct ctx as [member adm|user]; cbn [author in_direct_message].
  - right. split; [by intros (_ & ?)|].
    destruct (assign_returns role member st) as (success & reason & st' & H).
    exists success, reason, st'. split; [done|].
    assert (Hchan := assign_channel role member st).
    by rewrite H in Hchan.
  - destruct (decide (role = 0)) as [->|Hcfg].
    + right. split; [by intros (? & _)|].
      rewrite assign_unconfigured. by do 3 eexists.
    + left. split; [done|]. split; [done|]. by apply assign_user.
Qed.

(** X20: [verify] raises in three cases and no other, each time with
    the exception named: when the backend query raises; when the query
    answers with a passed record, a role is configured and the command
    was sent in a direct message, where the author is a user without a
    guild ([AttributeError], no reply); and, outside that case, when the
    channel refuses the reply.  A role assignment that fails never makes
    it raise. *)
Theorem verify_raises_iff role ctx st e :
  (verify role ctx st).1 = Raise e
  <-> users_by_discord_id (world st) (str_of_Z (author_id ctx)) = Raise e
      \/ (exists data,
            users_by_discord_id (world st) (str_of_Z (author_id ctx)) = Ok data
            /\ passed_record data /\ role <> 0 /\ in_direct_message ctx
            /\ e = no_guild_attribute)
      \/ (exists data,
            users_by_discord_id (world st) (str_of_Z (author_id ctx)) = Ok data
            /\ ~ (passed_record data /\ role <> 0 /\ in_direct_message ctx)
            /\ channel_fault (world st) = Some e).
Proof.
  rewrite verify_eq. unfold verify_run.
  destruct (users_by_discord_id (world st) (str_of_Z (author_id ctx)))
    as [data|e'].
  2: { cbn [fst]. split.
       - intros [= ->]. by left.
       - intros [[= ->]|[(data & [=] & _)|(data & [=] & _)]]. done. }
  (* the reply, when no call on [member.guild] has raised *)
  assert (Hreply : forall emb s,
    ~ (passed_record data /\ role <> 0 /\ in_direct_message ctx) ->
    channel_fault (world s) = channel_fault (world st) ->
    (ctx_reply emb s).1 = Raise e
    <-> Ok data = Raise e
        \/ (exists data0,
              Ok data = Ok data0
              /\ passed_record data0 /\ role <> 0 /\ in_direct_message ctx
              /\ e = no_guild_attribute)
        \/ (exists data0,
              Ok data = Ok data0
              /\ ~ (passed_record data0 /\ role <> 0 /\ in_direct_message ctx)
              /\ channel_fault (world st) = Some e)).
  { intros emb s Hnot Hs. rewrite ctx_reply_result, Hs. split.
    - destruct (channel_fault (world st)) as [x|]; [|done].
      intros [= ->]. right. right. by exists data.
    - intros [[=]|[(data0 & [= <-] & Hp & Hc & Hd & _)|(data0 & _ & _ & ->)]];
        [by destruct Hnot | done]. }
  destruct (nonempty (head data)) as [user_data|] eqn:Hhead.
  2: { apply Hreply; [|done]. intros ((u & Hu & _) & _).
       by rewrite Hhead in Hu. }
  destruct (decide (dict_get user_data "status" = PyStr "passed"))
    as [Hpassed|Hpassed].
  2: { apply Hreply; [|done].
       intros ((u & Hu & Hs) & _). rewrite Hhead in Hu.
       by injection Hu as <-. }
  assert (Hrecord : passed_record data) by by exists user_data.
  destruct (assign_author role ctx st)
    as [(Hcfg & Hdm & ->) | (Hnot & success & reason & st' & -> & Hchan)].
  - cbn [fst]. split.
    + intros [= <-]. right. left. by exists data.
    + intros [[=]|[(data0 & _ & _ & _ & _ & ->)|(data0 & [= <-] & Hnot & _)]];
        [done|]. by destruct Hnot.
  - apply Hreply; [|done]. intros (_ & Hc & Hd). by apply Hnot.
Qed.

(** The author of a direct message is no member: a call for that author
    changes nothing. *)
Lemma assign_user_state role id st :
  (assign_role_to_member role (UserObj id) st).2 = st.
Proof.
  destruct (decide (role = 0)) as [->|Hcfg].
  - by rewrite assign_unconfigured.
  - by rewrite assign_user.
Qed.

(** X18: [verify] can change the entry of its author only: every other
    member's entry is the same afterwards, however the command ends. *)
Theorem verify_touches_author_only role ctx st other :
  other <> author_id ctx ->
  members (world (verify role ctx st).2) !! other = members (world st) !! other.
Proof.
  intros Hother. rewrite verify_eq. unfold verify_run.
  destruct (users_by_discord_id (world st) (str_of_Z (author_id ctx))) as [data|e];
    [|done].
  destruct (nonempty (head data)) as [user_data|];
    [|by rewrite ctx_reply_state].
  destruct (decide (dict_get user_data "status" = PyStr "passed"))
    as [Hpassed|Hpassed]; [|by rewrite ctx_reply_state].
  assert (Hframe :
    members (world (assign_role_to_member role (author ctx) st).2) !! other
    = members (world st) !! other).
  { destruct ctx as [member adm|user]; cbn [author author_id] in *.
    - by apply assign_frame.
    - by rewrite assign_user_state. }
  destruct (assign_role_to_member role (author ctx) st)
    as [[[success reason]|e] st']; cbn [snd] in Hframe; [|done].
  by rewrite ctx_reply_state.
Qed.

Lemma verify_touches_author_only_witness :
  43 <> author_id (GuildCtx (Cached 42) false)
  /\ members (world (verify 7 (GuildCtx (Cached 42) false)
                       (mkState quiz_guild [])).2) !! 43
     = Some (Member "bob" {[7]} false).
Proof.
  assert (H : 43 <> author_id (GuildCtx (Cached 42) false)) by (cbn; lia).
  split; [exact H|].
  rewrite (verify_touches_author_only 7 (GuildCtx (Cached 42) false)
             (mkState quiz_guild []) 43 H).
  reflexivity.
Defined.
